(** * zyd-fetch: the request gateway and its interception pipeline

    A shallow embedding of [ApiService] (the axios wrapper of zyd-fetch)
    and the properties of its response/error interception pipeline.

    The TypeScript class is the one the bundle is built from; the older
    JavaScript class is kept in [Module Legacy] where it differs.

    Conventions of the embedding.
    - A JavaScript value of type [any] is a [JsVal].  Numbers are the
      integer-valued ones ([Z]): status codes and business codes.
    - An optional property ([p?: T]) is an [option]; [None] is an absent
      property.  An object holding a property explicitly set to [undefined]
      is not represented.
    - Objects used as dictionaries (headers, the status table) are [gmap]s.
    - A promise-returning operation is a [Run A]: the effects it performed,
      in order, and how the promise settled.
    - The transport ([adapter]) and [JSON.stringify] are parameters.
    - Caller-supplied hooks are total functions; the notifier is a sink
      whose invocations are recorded as [OnError] events. *)

From Stdlib Require Import ZArith String List Bool.
From stdpp Require Import gmap strings pretty.

Set Warnings "-register-all".

Local Open Scope string_scope.
Local Open Scope Z_scope.
Local Open Scope list_scope.

(** ** JavaScript values *)

Inductive JsVal : Type :=
| JUndefined
| JNull
| JBool (b : bool)
| JNum (n : Z)
| JStr (s : string)
| JObj (fields : list (string * JsVal)).

(** [!!v] *)
Definition truthy (v : JsVal) : bool :=
  match v with
  | JUndefined | JNull => false
  | JBool b => b
  | JNum n => negb (n =? 0)
  | JStr s => negb (String.eqb s "")
  | JObj _ => true
  end.

Fixpoint assoc (k : string) (fields : list (string * JsVal)) : JsVal :=
  match fields with
  | [] => JUndefined
  | (k', v) :: rest => if String.eqb k k' then v else assoc k rest
  end.

(** [v.k] for a [v] that is neither [undefined] nor [null]: a property of an
    object, [undefined] on a primitive. *)
Definition prop (v : JsVal) (k : string) : JsVal :=
  match v with
  | JObj fields => assoc k fields
  | _ => JUndefined
  end.

(** [v || {}] *)
Definition or_empty (v : JsVal) : JsVal :=
  if truthy v then v else JObj [].

(** [v !== n] for a number [n]. *)
Definition strict_neq (v : JsVal) (n : Z) : bool :=
  match v with
  | JNum m => negb (m =? n)
  | _ => true
  end.

(** Truthiness of an optional boolean flag. *)
Definition flag_set (f : option bool) : bool :=
  match f with
  | Some b => b
  | None => false
  end.

(** [f !== false] *)
Definition not_false (f : option bool) : bool :=
  match f with
  | Some false => false
  | _ => true
  end.

(** [s.includes(sub)] *)
Definition includes (s sub : string) : bool :=
  match String.index 0 sub s with
  | Some _ => true
  | None => false
  end.

(** [o[k]] on a headers object. *)
Definition header (hs : gmap string JsVal) (k : string) : JsVal :=
  match hs !! k with
  | Some v => v
  | None => JUndefined
  end.

(** ** Descriptors, envelopes, failures *)

(** [CustomRequestConfig]: the fields of [AxiosRequestConfig] the gateway
    touches, and its own three. *)
Record RequestConfig : Type := {
  method : option string;
  url : option string;
  params : JsVal;
  data : JsVal;
  headers : option (gmap string JsVal);
  responseType : option string;
  hasErrorMessage : option bool;
  returnFullResponse : option bool;
  filename : option string;
}.

(** [{}] *)
Definition empty_config : RequestConfig :=
  {| method := None; url := None; params := JUndefined; data := JUndefined;
     headers := None; responseType := None; hasErrorMessage := None;
     returnFullResponse := None; filename := None |}.

Definition or_else {A : Type} (over base : option A) : option A :=
  match over with
  | Some _ => over
  | None => base
  end.

Definition or_else_val (over base : JsVal) : JsVal :=
  match over with
  | JUndefined => base
  | _ => over
  end.

(** [{ ...base, ...over }]: every property [over] has replaces the one of
    [base].  [over] has a property when the field is [Some _], or is not
    [JUndefined]; a property explicitly set to [undefined], which the
    JavaScript spread would copy over the base, is not represented. *)
Definition spread (base over : RequestConfig) : RequestConfig :=
  {| method := or_else (method over) (method base);
     url := or_else (url over) (url base);
     params := or_else_val (params over) (params base);
     data := or_else_val (data over) (data base);
     headers := or_else (headers over) (headers base);
     responseType := or_else (responseType over) (responseType base);
     hasErrorMessage := or_else (hasErrorMessage over) (hasErrorMessage base);
     returnFullResponse :=
       or_else (returnFullResponse over) (returnFullResponse base);
     filename := or_else (filename over) (filename base) |}.

(** [AxiosResponse] *)
Record AxiosResponse : Type := {
  res_status : Z;
  res_headers : gmap string JsVal;
  res_config : RequestConfig;
  res_data : JsVal;
}.

(** The failure the error handler receives ([error: any]): what the handler
    reads of it and what it writes to it. *)
Record Failure : Type := {
  err_isCancel : bool;                   (* axios.isCancel(error) *)
  err_config : option RequestConfig;     (* error.config *)
  err_response : option AxiosResponse;   (* error.response *)
  err_message : string;                  (* error.message *)
  err_code : option string;              (* error.code *)
}.

(** [error.message = m] *)
Definition with_message (m : string) (e : Failure) : Failure :=
  {| err_isCancel := err_isCancel e; err_config := err_config e;
     err_response := err_response e; err_message := m;
     err_code := err_code e |}.

(** What a call hands back: the whole envelope, or a bare value. *)
Inductive Returned : Type :=
| Envelope (r : AxiosResponse)
| Payload (v : JsVal).

(** ** Effects *)

Inductive Event : Type :=
| Dispatch (c : RequestConfig)            (* the transport is invoked *)
| OnError (msg : JsVal)                   (* onError(msg) *)
| ConsoleWarn (text : string)
| ConsoleError (label : string) (e : Failure)
| SaveFile (content : JsVal) (name : string).

Inductive Settled (A : Type) : Type :=
| Fulfilled (a : A)
| Rejected (e : Failure).
Arguments Fulfilled {A} a.
Arguments Rejected {A} e.

Definition Run (A : Type) : Type := (list Event * Settled A)%type.

Definition ret {A : Type} (a : A) : Run A := ([], Fulfilled a).
Definition throw {A : Type} (e : Failure) : Run A := ([], Rejected e).
Definition tell (ev : Event) : Run unit := ([ev], Fulfilled tt).

Definition bind {A B : Type} (m : Run A) (k : A -> Run B) : Run B :=
  match m with
  | (t, Fulfilled a) => let (t', s) := k a in (t ++ t', s)
  | (t, Rejected e) => (t, Rejected e)
  end.

(** [try { m } catch (error) { h error }] *)
Definition try_catch {A : Type} (m : Run A) (h : Failure -> Run A) : Run A :=
  match m with
  | (t, Rejected e) => let (t', s) := h e in (t ++ t', s)
  | done => done
  end.

Declare Scope run_scope.
Delimit Scope run_scope with run.
Notation "x <- m ;; k" := (bind m (fun x => k))
  (at level 100, m at next level, right associativity) : run_scope.
Notation "m ;; k" := (bind m (fun _ => k))
  (at level 100, right associativity) : run_scope.
Local Open Scope run_scope.

Definition when (b : bool) (m : Run unit) : Run unit :=
  if b then m else ret tt.

Definition trace {A : Type} (m : Run A) : list Event := fst m.
Definition outcome {A : Type} (m : Run A) : Settled A := snd m.

Definition is_notification (ev : Event) : bool :=
  match ev with
  | OnError _ => true
  | _ => false
  end.

Definition is_dispatch (ev : Event) : bool :=
  match ev with
  | Dispatch _ => true
  | _ => false
  end.

(** The notifier invocations of a run, in order. *)
Definition notifications {A : Type} (m : Run A) : list Event :=
  List.filter is_notification (trace m).

(** The transport invocations of a run, in order. *)
Definition dispatches {A : Type} (m : Run A) : list Event :=
  List.filter is_dispatch (trace m).

(** ** Construction-time configuration *)

(** [_statusMap] *)
Definition _statusMap : gmap Z string :=
  {[ 400 := "请求错误";
     401 := "未授权，请登录";
     403 := "拒绝访问";
     404 := "请求错误,未找到该资源";
     405 := "请求方法未允许";
     408 := "请求超时";
     500 := "服务器端出错";
     501 := "网络未实现";
     502 := "网络错误";
     503 := "服务不可用";
     504 := "网络超时";
     505 := "http版本不支持该请求";
     506 := "http代理错误" ]}.

(** [ApiServiceOptions].  [onError] says whether a notifier was supplied. *)
Record ApiServiceOptions : Type := {
  baseURL : string;
  timeout : option Z;
  successStatusCode : option Z;
  defaultHeaders : option (gmap string JsVal);
  requestInterceptor : option (RequestConfig -> RequestConfig);
  responseInterceptor : option (AxiosResponse -> Returned);
  onError : bool;
  statusMap : option (gmap Z string);
}.

(** [successStatusCode = 200] in the constructor's parameter list. *)
Definition successCode (opts : ApiServiceOptions) : Z :=
  match successStatusCode opts with
  | Some c => c
  | None => 200
  end.

(** [this.statusMap = statusMap || _statusMap] *)
Definition this_statusMap (opts : ApiServiceOptions) : gmap Z string :=
  match statusMap opts with
  | Some tbl => tbl
  | None => _statusMap
  end.

Definition connection_failed : string := "连接服务器失败".
Definition response_timed_out : string := "服务器响应超时，请刷新当前页".
(** [`连接错误${status}`]; an integer prints in decimal. *)
Definition connection_error (status : Z) : string :=
  "连接错误" +:+ pretty status.

(** Truthiness of [tbl[status]]. *)
Definition entry_truthy (entry : option string) : bool :=
  match entry with
  | Some m => negb (String.eqb m "")
  | None => false
  end.

Definition entry_text (entry : option string) : string :=
  match entry with
  | Some m => m
  | None => ""
  end.

(** A [TypeError] raised by the runtime. *)
Definition type_error (m : string) : Failure :=
  {| err_isCancel := false; err_config := None; err_response := None;
     err_message := m; err_code := None |}.

(** [x.data] on what the instance handed back. *)
Definition member_data (x : Returned) : Run JsVal :=
  match x with
  | Envelope r => ret (res_data r)
  | Payload JUndefined | Payload JNull =>
      throw (type_error "Cannot read properties of undefined")
  | Payload v => ret (prop v "data")
  end.

(** An optional value with a fallback: a parameter default
    ([hasErrorMessage = true], [headers = {}], [config = {}]) or
    [error.config || {}]. *)
Definition defaulted {A : Type} (arg : option A) (dflt : A) : A :=
  match arg with
  | Some a => a
  | None => dflt
  end.

(** ** The gateway (TypeScript class) *)

Section Gateway.

Variable opts : ApiServiceOptions.
Variable adapter : RequestConfig -> Settled AxiosResponse.
Variable JSON_stringify : Failure -> string.

(** [onError && onError(msg)] / [if (onError) onError(msg)] *)
Definition notify (msg : JsVal) : Run unit :=
  when (onError opts) (tell (OnError msg)).

(** Request interceptor, fulfilled side. *)
Definition shape (config : RequestConfig) : RequestConfig :=
  match requestInterceptor opts with
  | Some hook => hook config
  | None => config
  end.

(** Response interceptor, fulfilled side. *)
Definition on_fulfilled (response : AxiosResponse) : Run Returned :=
  match responseInterceptor opts with
  | Some hook => ret (hook response)
  | None =>
      let headers := res_headers response in
      let config := res_config response in
      let data := res_data response in
      let isBlob := header headers "isBlob" in
      let customConfig := config in
      let hasErrorMessage := hasErrorMessage customConfig in
      let code := prop (or_empty data) "code" in
      let msg := prop (or_empty data) "msg" in
      when (flag_set hasErrorMessage && strict_neq code (successCode opts))
           (notify msg) ;;
      if truthy isBlob || flag_set (returnFullResponse customConfig)
      then ret (Envelope response)
      else ret (Payload (res_data response))
  end.

(** The message the error handler attaches when reporting is on. *)
Definition resolve_message (error : Failure) : Failure :=
  match err_response error with
  | Some response =>
      let status := res_status response in
      if negb (status =? 0) && entry_truthy (this_statusMap opts !! status)
      then with_message (entry_text (this_statusMap opts !! status)) error
      else with_message (connection_error status) error
  | None =>
      let error := with_message connection_failed error in
      if includes (JSON_stringify error) "timeout"
      then with_message response_timed_out error
      else error
  end.

(** Response interceptor, rejected side. *)
Definition on_rejected {A : Type} (error : Failure) : Run A :=
  let config := defaulted (err_config error) empty_config in
  if err_isCancel error then throw error
  else if not_false (hasErrorMessage config) then
    let error := resolve_message error in
    notify (JStr (err_message error)) ;;
    throw error
  else throw error.

(** [this.service.request(config)]: shaping hook, transport, then the
    response interceptor on the side the transport settled on.

    Before the hook runs, axios merges the defaults of [axios.create]
    (baseURL, timeout, headers) into the descriptor.  [RequestConfig] has no
    baseURL or timeout and the default headers are not merged here:
    [Dispatch c] records the descriptor as the gateway built and shaped it,
    and whatever the transport attaches to its answer is the transport's
    ([adapter]) to decide.  A hook that raises is not represented. *)
Definition service_request (config : RequestConfig) : Run Returned :=
  let config := shape config in
  tell (Dispatch config) ;;
  match adapter config with
  | Fulfilled response => on_fulfilled response
  | Rejected error => on_rejected error
  end.

(** [this.service.get(url, config)] *)
Definition service_get (u : string) (config : RequestConfig) : Run Returned :=
  service_request
    (spread config
       {| method := Some "get"; url := Some u; params := JUndefined;
          data := JUndefined; headers := None; responseType := None;
          hasErrorMessage := None; returnFullResponse := None;
          filename := None |}).

Definition request (config : RequestConfig) : Run Returned :=
  try_catch (response <- service_request config ;; ret response)
            (fun error => throw error).

(** The object literals the four verb operations pass to [request]. *)
Definition get_descriptor (u : string) (ps : JsVal) (flag : option bool)
    (hs : option (gmap string JsVal)) : RequestConfig :=
  {| method := Some "get"; url := Some u; params := ps;
     data := JUndefined; headers := Some (defaulted hs ∅);
     responseType := None; hasErrorMessage := Some (defaulted flag true);
     returnFullResponse := None; filename := None |}.

Definition post_descriptor (u : string) (d : JsVal) (flag : option bool)
    (hs : option (gmap string JsVal)) : RequestConfig :=
  {| method := Some "post"; url := Some u; params := JUndefined;
     data := d; headers := Some (defaulted hs ∅);
     responseType := None; hasErrorMessage := Some (defaulted flag true);
     returnFullResponse := None; filename := None |}.

Definition put_descriptor (u : string) (d : JsVal) (flag : option bool)
    (hs : option (gmap string JsVal)) : RequestConfig :=
  {| method := Some "put"; url := Some u; params := JUndefined;
     data := d; headers := Some (defaulted hs ∅);
     responseType := None; hasErrorMessage := Some (defaulted flag true);
     returnFullResponse := None; filename := None |}.

Definition delete_descriptor (u : string) (ps : JsVal) (flag : option bool)
    (hs : option (gmap string JsVal)) : RequestConfig :=
  {| method := Some "delete"; url := Some u; params := ps;
     data := JUndefined; headers := Some (defaulted hs ∅);
     responseType := None; hasErrorMessage := Some (defaulted flag true);
     returnFullResponse := None; filename := None |}.

Definition get (u : string) (ps : JsVal) (flag : option bool)
    (hs : option (gmap string JsVal)) : Run Returned :=
  request (get_descriptor u ps flag hs).

Definition post (u : string) (d : JsVal) (flag : option bool)
    (hs : option (gmap string JsVal)) : Run Returned :=
  request (post_descriptor u d flag hs).

Definition put (u : string) (d : JsVal) (flag : option bool)
    (hs : option (gmap string JsVal)) : Run Returned :=
  request (put_descriptor u d flag hs).

Definition delete (u : string) (ps : JsVal) (flag : option bool)
    (hs : option (gmap string JsVal)) : Run Returned :=
  request (delete_descriptor u ps flag hs).

(** [{ 'Content-Type': 'multipart/form-data', ...config.headers }] *)
Definition multipart_headers (config : RequestConfig) : gmap string JsVal :=
  defaulted (headers config) ∅
    ∪ {[ "Content-Type" := JStr "multipart/form-data" ]}.

(** The object literal [upload] passes to [request]. *)
Definition upload_descriptor (u : string) (formData : JsVal)
    (config : RequestConfig) : RequestConfig :=
  spread
    {| method := Some "post"; url := Some u; params := JUndefined;
       data := formData; headers := Some (multipart_headers config);
       responseType := None; hasErrorMessage := None;
       returnFullResponse := None; filename := None |}
    config.

Definition upload (u : string) (formData : JsVal)
    (config : option RequestConfig) : Run Returned :=
  request (upload_descriptor u formData (defaulted config empty_config)).

(** [config.filename || 'file'] *)
Definition suggested_name (config : RequestConfig) : string :=
  match filename config with
  | Some n => if String.eqb n "" then "file" else n
  | None => "file"
  end.

(** [window_defined] is [typeof window !== 'undefined']. *)
Definition download (window_defined : bool) (u : string) (ps : JsVal)
    (config : option RequestConfig) : Run unit :=
  let config := defaulted config empty_config in
  if negb window_defined then
    tell (ConsoleWarn "Download is not supported in non-browser environment") ;;
    ret tt
  else
    try_catch
      (response <- service_get u
         (spread
            {| method := None; url := None; params := ps;
               data := JUndefined; headers := None;
               responseType := Some "blob"; hasErrorMessage := None;
               returnFullResponse := None; filename := None |}
            config) ;;
       content <- member_data response ;;
       tell (SaveFile content (suggested_name config)) ;;
       ret tt)
      (fun error => tell (ConsoleError "Download Error:" error) ;; throw error).

End Gateway.

(** ** The older JavaScript class, where it differs *)

Module Legacy.
Section Gateway.

Variable opts : ApiServiceOptions.
Variable adapter : RequestConfig -> Settled AxiosResponse.
Variable JSON_stringify : Failure -> string.

(** No business-code check and no envelope pass-through. *)
Definition on_fulfilled (response : AxiosResponse) : Run Returned :=
  match responseInterceptor opts with
  | Some hook => ret (hook response)
  | None => ret (Payload (res_data response))
  end.

(** No cancellation check. *)
Definition on_rejected {A : Type} (error : Failure) : Run A :=
  let config := defaulted (err_config error) empty_config in
  if not_false (hasErrorMessage config) then
    let error := resolve_message opts JSON_stringify error in
    notify opts (JStr (err_message error)) ;;
    throw error
  else throw error.

Definition service_request (config : RequestConfig) : Run Returned :=
  let config := shape opts config in
  tell (Dispatch config) ;;
  match adapter config with
  | Fulfilled response => on_fulfilled response
  | Rejected error => on_rejected error
  end.

Definition request (config : RequestConfig) : Run Returned :=
  try_catch (response <- service_request config ;; ret response)
            (fun error =>
               tell (ConsoleError "Request Error:" error) ;; throw error).

Definition upload (u : string) (formData : JsVal)
    (config : option RequestConfig) : Run Returned :=
  request (upload_descriptor u formData (defaulted config empty_config)).

(** No environment guard: [window] is first touched after the transport
    has answered. *)
Definition download (window_defined : bool) (u : string) (ps : JsVal)
    (config : option RequestConfig) : Run unit :=
  let config := defaulted config empty_config in
  try_catch
    (response <- service_request
       (spread
          (spread
             {| method := None; url := None; params := ps;
                data := JUndefined; headers := None;
                responseType := Some "blob"; hasErrorMessage := None;
                returnFullResponse := None; filename := None |}
             config)
          {| method := Some "get"; url := Some u; params := JUndefined;
             data := JUndefined; headers := None; responseType := None;
             hasErrorMessage := None; returnFullResponse := None;
             filename := None |}) ;;
     (if window_defined then ret tt
      else throw (type_error "window is not defined")) ;;
     content <- member_data response ;;
     tell (SaveFile content (suggested_name config)) ;;
     ret tt)
    (fun error => tell (ConsoleError "Download Error:" error) ;; throw error).

End Gateway.
End Legacy.

(** ** Sample data used by the examples below *)

Definition plain_options : ApiServiceOptions :=
  {| baseURL := "/api"; timeout := None; successStatusCode := None;
     defaultHeaders := None; requestInterceptor := None;
     responseInterceptor := None; onError := true; statusMap := None |}.

Definition descriptor (flag full : option bool) : RequestConfig :=
  {| method := Some "get"; url := Some "/users"; params := JUndefined;
     data := JUndefined; headers := Some ∅; responseType := None;
     hasErrorMessage := flag; returnFullResponse := full; filename := None |}.

Definition business_failure : JsVal :=
  JObj [("code", JNum 1001); ("msg", JStr "quota exceeded")].

Definition envelope (config : RequestConfig) (body : JsVal) : AxiosResponse :=
  {| res_status := 200; res_headers := ∅; res_config := config;
     res_data := body |}.

Definition http_failure (config : RequestConfig) (status : Z) : Failure :=
  {| err_isCancel := false; err_config := Some config;
     err_response := Some {| res_status := status; res_headers := ∅;
                             res_config := config; res_data := JUndefined |};
     err_message := "Request failed"; err_code := Some "ERR_BAD_REQUEST" |}.

Definition network_failure (config : RequestConfig) (m : string) : Failure :=
  {| err_isCancel := false; err_config := Some config; err_response := None;
     err_message := m; err_code := Some "ERR_NETWORK" |}.

Definition cancellation (config : RequestConfig) : Failure :=
  {| err_isCancel := true; err_config := Some config; err_response := None;
     err_message := "canceled"; err_code := Some "ERR_CANCELED" |}.

(** A serialiser that prints the message and the code of a failure. *)
Definition message_and_code (e : Failure) : string :=
  "message=" +:+ err_message e +:+ ";code=" +:+ entry_text (err_code e).

(** A serialiser that also prints the descriptor's timeout setting, as the
    serialised form of an axios failure does. *)
Definition with_timeout_setting (e : Failure) : string :=
  message_and_code e +:+ ";config.timeout=5000".

Definition always_ok (body : JsVal) (c : RequestConfig) : Settled AxiosResponse :=
  Fulfilled (envelope c body).

Definition always_fails (mk : RequestConfig -> Failure) (c : RequestConfig)
    : Settled AxiosResponse :=
  Rejected (mk c).

Definition authorised_only : RequestConfig :=
  {| method := None; url := None; params := JUndefined; data := JUndefined;
     headers := Some {[ "Authorization" := JStr "Bearer t" ]};
     responseType := None; hasErrorMessage := None;
     returnFullResponse := None; filename := None |}.

Definition blank_404_options : ApiServiceOptions :=
  {| baseURL := "/api"; timeout := None; successStatusCode := None;
     defaultHeaders := None; requestInterceptor := None;
     responseInterceptor := None; onError := true;
     statusMap := Some {[ 404 := "" ]} |}.

Definition hooked_options (hook : AxiosResponse -> Returned)
    : ApiServiceOptions :=
  {| baseURL := "/api"; timeout := None; successStatusCode := None;
     defaultHeaders := None; requestInterceptor := None;
     responseInterceptor := Some hook; onError := true; statusMap := None |}.

(** ** Vocabulary of the properties *)

(** The five operations a caller reaches the transport through. *)
Inductive Call : Type :=
| CallRequest (config : RequestConfig)
| CallGet (u : string) (ps : JsVal) (flag : option bool)
    (hs : option (gmap string JsVal))
| CallPost (u : string) (d : JsVal) (flag : option bool)
    (hs : option (gmap string JsVal))
| CallPut (u : string) (d : JsVal) (flag : option bool)
    (hs : option (gmap string JsVal))
| CallDelete (u : string) (ps : JsVal) (flag : option bool)
    (hs : option (gmap string JsVal)).

Definition perform (opts : ApiServiceOptions)
    (adapter : RequestConfig -> Settled AxiosResponse)
    (JSON_stringify : Failure -> string) (c : Call) : Run Returned :=
  match c with
  | CallRequest config => request opts adapter JSON_stringify config
  | CallGet u ps flag hs => get opts adapter JSON_stringify u ps flag hs
  | CallPost u d flag hs => post opts adapter JSON_stringify u d flag hs
  | CallPut u d flag hs => put opts adapter JSON_stringify u d flag hs
  | CallDelete u ps flag hs => delete opts adapter JSON_stringify u ps flag hs
  end.

(** The descriptor a call builds, before the shaping hook. *)
Definition descriptor_of (c : Call) : RequestConfig :=
  match c with
  | CallRequest config => config
  | CallGet u ps flag hs => get_descriptor u ps flag hs
  | CallPost u d flag hs => post_descriptor u d flag hs
  | CallPut u d flag hs => put_descriptor u d flag hs
  | CallDelete u ps flag hs => delete_descriptor u ps flag hs
  end.

(** The envelope or failure the transport answered with carries a
    descriptor whose [hasErrorMessage] is [flag]. *)
Definition answers_with_flag (flag : option bool)
    (s : Settled AxiosResponse) : Prop :=
  match s with
  | Fulfilled r => hasErrorMessage (res_config r) = flag
  | Rejected e => exists c, err_config e = Some c /\ hasErrorMessage c = flag
  end.

(** [e'] is [e], possibly with another message. *)
Definition annotated (e e' : Failure) : Prop :=
  e' = e \/ exists m, e' = with_message m e.

(** The run rejects with [e], possibly message-annotated. *)
Definition reraises {A : Type} (m : Run A) (e : Failure) : Prop :=
  exists e', outcome m = Rejected e' /\ annotated e e'.

(** The business status code and message of an envelope. *)
Definition business_code (response : AxiosResponse) : JsVal :=
  prop (or_empty (res_data response)) "code".

Definition business_msg (response : AxiosResponse) : JsVal :=
  prop (or_empty (res_data response)) "msg".

(** The envelope is passed through whole. *)
Definition wants_envelope (response : AxiosResponse) : bool :=
  truthy (header (res_headers response) "isBlob")
  || flag_set (returnFullResponse (res_config response)).

(** The reading of the business-error rule under which every call whose
    flag is not [false] is notified and handed the bare payload. *)
Definition business_error_rule_as_stated : Prop :=
  forall (opts : ApiServiceOptions) (response : AxiosResponse),
    responseInterceptor opts = None ->
    business_code response <> JUndefined ->
    strict_neq (business_code response) (successCode opts) = true ->
    hasErrorMessage (res_config response) <> Some false ->
    on_fulfilled opts response
    = ([OnError (business_msg response)],
       Fulfilled (Payload (res_data response))).

(** The reading of the status-message rule under which presence in the
    table alone selects the table entry. *)
Definition status_message_rule_as_stated : Prop :=
  forall (opts : ApiServiceOptions) (JSON_stringify : Failure -> string)
         (e : Failure) (response : AxiosResponse),
    err_isCancel e = false ->
    err_response e = Some response ->
    hasErrorMessage (defaulted (err_config e) empty_config) <> Some false ->
    outcome (@on_rejected opts JSON_stringify Returned e)
    = Rejected
        (with_message
           (match this_statusMap opts !! res_status response with
            | Some m => m
            | None => connection_error (res_status response)
            end) e).

(** What the upload rule promises about the outgoing headers. *)
Definition upload_content_type_rule (u : string) (formData : JsVal)
    (config : RequestConfig) : Prop :=
  match header (defaulted (headers config) ∅) "Content-Type" with
  | JUndefined =>
      header (defaulted (headers (upload_descriptor u formData config)) ∅)
             "Content-Type"
      = JStr "multipart/form-data"
  | supplied =>
      header (defaulted (headers (upload_descriptor u formData config)) ∅)
             "Content-Type"
      = supplied
  end.

(** ** The object-storage adapter ([OSSService]) *)

(** What an [OSSService] call does to the outside: the storage primitive
    it invokes, what it logs, the dialog the older class pops up. *)
Inductive OssEvent (E : Type) : Type :=
| OssPut (filePath : string) (file : JsVal)   (* this.client.put(filePath, file) *)
| OssConsoleError (label : string) (error : E)
| OssAlert (text : string).
Arguments OssPut {E} filePath file.
Arguments OssConsoleError {E} label error.
Arguments OssAlert {E} text.

Module OSSService.
Section Client.

(** The storage capability: [put] resolves with a provider-defined result
    ([inl]) or rejects with a provider-defined failure ([inr]). *)
Variables R E : Type.
Variable client_put : string -> JsVal -> R + E.

(** TypeScript class. *)
Definition upload (filePath : string) (file : JsVal)
    : list (OssEvent E) * (R + E) :=
  match client_put filePath file with
  | inl result => ([OssPut filePath file], inl result)
  | inr error =>
      ([OssPut filePath file; OssConsoleError "OSS Upload Error:" error],
       inr error)
  end.

(** Older JavaScript class. *)
Definition legacy_upload (filePath : string) (file : JsVal)
    : list (OssEvent E) * (R + E) :=
  match client_put filePath file with
  | inl result => ([OssPut filePath file], inl result)
  | inr error =>
      ([OssPut filePath file; OssConsoleError "OSS Upload Error:" error;
        OssAlert "OSS Upload Failed"],
       inr error)
  end.

End Client.
End OSSService.
Arguments OSSService.upload {R E} client_put filePath file.
Arguments OSSService.legacy_upload {R E} client_put filePath file.

Definition is_oss_put {E : Type} (ev : OssEvent E) : bool :=
  match ev with
  | OssPut _ _ => true
  | _ => false
  end.

Definition is_oss_alert {E : Type} (ev : OssEvent E) : bool :=
  match ev with
  | OssAlert _ => true
  | _ => false
  end.

(** ** Further vocabulary *)

(** The descriptor the browser branch of [download] hands to the instance:
    [{ params, responseType: 'blob', ...config }] under the method and url
    that [get] fixes. *)
Definition download_descriptor (u : string) (ps : JsVal)
    (config : option RequestConfig) : RequestConfig :=
  spread
    (spread
       {| method := None; url := None; params := ps;
          data := JUndefined; headers := None;
          responseType := Some "blob"; hasErrorMessage := None;
          returnFullResponse := None; filename := None |}
       (defaulted config empty_config))
    {| method := Some "get"; url := Some u; params := JUndefined;
       data := JUndefined; headers := None; responseType := None;
       hasErrorMessage := None; returnFullResponse := None;
       filename := None |}.

Definition is_save (ev : Event) : bool :=
  match ev with
  | SaveFile _ _ => true
  | _ => false
  end.

(** The files a run offered to save, in order. *)
Definition saves {A : Type} (m : Run A) : list Event :=
  List.filter is_save (trace m).

(** One of [get], [post], [put], [delete]. *)
Definition is_verb (c : Call) : bool :=
  match c with
  | CallRequest _ => false
  | _ => true
  end.

(** The [hasErrorMessage] the caller wrote: the third argument of a verb,
    the property of the descriptor given to [request]. *)
Definition flag_argument (c : Call) : option bool :=
  match c with
  | CallRequest config => hasErrorMessage config
  | CallGet _ _ flag _ | CallPost _ _ flag _
  | CallPut _ _ flag _ | CallDelete _ _ flag _ => flag
  end.

Definition custom_table_options : ApiServiceOptions :=
  {| baseURL := "/api"; timeout := None; successStatusCode := None;
     defaultHeaders := None; requestInterceptor := None;
     responseInterceptor := None; onError := true;
     statusMap := Some {[ 404 := "资源不存在" ]} |}.

(** An envelope as the axios instance hands it over: its [config] is the
    descriptor the call sent with the instance defaults merged in (here a
    default [Accept] header), so it is not the descriptor itself. *)
Definition defaults_envelope (c : RequestConfig) (body : JsVal)
    : AxiosResponse :=
  {| res_status := 200; res_headers := ∅;
     res_config :=
       {| method := method c; url := url c; params := params c;
          data := data c;
          headers :=
            Some (defaulted (headers c) ∅
                  ∪ {[ "Accept" := JStr "application/json, text/plain, */*" ]});
          responseType := responseType c;
          hasErrorMessage := hasErrorMessage c;
          returnFullResponse := returnFullResponse c;
          filename := filename c |};
     res_data := body |}.

Definition answer_with_defaults (body : JsVal) (c : RequestConfig)
    : Settled AxiosResponse :=
  Fulfilled (defaults_envelope c body).

Definition quiet_options : ApiServiceOptions :=
  {| baseURL := "/api"; timeout := None; successStatusCode := None;
     defaultHeaders := None; requestInterceptor := None;
     responseInterceptor := None; onError := false; statusMap := None |}.

Definition named (n : string) : RequestConfig :=
  {| method := None; url := None; params := JUndefined; data := JUndefined;
     headers := None; responseType := None; hasErrorMessage := None;
     returnFullResponse := None; filename := Some n |}.

(** A storage primitive that accepts keys under [uploads/] only. *)
Definition sample_put (filePath : string) (file : JsVal) : string + string :=
  if String.prefix "uploads/" filePath then inl ("etag-" +:+ filePath)
  else inr "AccessDenied".

(** * Properties *)

(** ** Basic facts *)

Lemma with_message_twice (m1 m2 : string) (e : Failure) :
  with_message m2 (with_message m1 e) = with_message m2 e.
Proof. reflexivity. Qed.

Lemma with_message_own (e : Failure) : with_message (err_message e) e = e.
Proof. destruct e; reflexivity. Qed.

Lemma annotated_refl (e : Failure) : annotated e e.
Proof. left; reflexivity. Qed.

Lemma annotated_with_message (m : string) (e : Failure) :
  annotated e (with_message m e).
Proof. right; exists m; reflexivity. Qed.

Lemma resolve_message_annotated opts js (e : Failure) :
  annotated e (resolve_message opts js e).
Proof.
  unfold resolve_message.
  destruct (err_response e) as [response|].
  - destruct (_ && _); apply annotated_with_message.
  - destruct (includes _ _); [rewrite with_message_twice|];
      apply annotated_with_message.
Qed.

(** The two shapes of the error handler's answer. *)
Lemma on_rejected_cases opts js (A : Type) (e : Failure) :
  @on_rejected opts js A e
  = if err_isCancel e then ([], Rejected e)
    else if not_false (hasErrorMessage (defaulted (err_config e) empty_config))
    then ((if onError opts
           then [OnError (JStr (err_message (resolve_message opts js e)))]
           else []),
          Rejected (resolve_message opts js e))
    else ([], Rejected e).
Proof.
  unfold on_rejected, notify, when.
  destruct (err_isCancel e); [reflexivity|].
  destruct (not_false _); [|reflexivity].
  destruct (onError opts); reflexivity.
Qed.

Lemma on_rejected_reraises opts js (A : Type) (e : Failure) :
  reraises (@on_rejected opts js A e) e.
Proof.
  rewrite on_rejected_cases.
  destruct (err_isCancel e).
  - exists e; split; [reflexivity | apply annotated_refl].
  - destruct (not_false _).
    + eexists; split; [reflexivity | apply resolve_message_annotated].
    + exists e; split; [reflexivity | apply annotated_refl].
Qed.

(** [request] adds nothing to what the instance does. *)
Lemma request_is_service_request opts adapter js config :
  request opts adapter js config = service_request opts adapter js config.
Proof.
  unfold request, try_catch, bind.
  destruct (service_request opts adapter js config) as [t [a|e]]; cbn.
  - rewrite app_nil_r; reflexivity.
  - rewrite app_nil_r; reflexivity.
Qed.

Lemma request_on_success opts adapter js config response :
  adapter (shape opts config) = Fulfilled response ->
  request opts adapter js config
  = (Dispatch (shape opts config) :: trace (on_fulfilled opts response),
     outcome (on_fulfilled opts response)).
Proof.
  intros Hs. rewrite request_is_service_request.
  unfold service_request, bind, tell. rewrite Hs.
  destruct (on_fulfilled opts response); reflexivity.
Qed.

Lemma request_on_failure opts adapter js config e :
  adapter (shape opts config) = Rejected e ->
  request opts adapter js config
  = (Dispatch (shape opts config) :: trace (@on_rejected opts js Returned e),
     outcome (@on_rejected opts js Returned e)).
Proof.
  intros Hs. rewrite request_is_service_request.
  unfold service_request, bind, tell. rewrite Hs.
  destruct (on_rejected opts js e); reflexivity.
Qed.

Lemma perform_is_request opts adapter js (c : Call) :
  perform opts adapter js c = request opts adapter js (descriptor_of c).
Proof. destruct c; reflexivity. Qed.

(** ** Success path *)

(** The default policy's answer, for every envelope. *)
Lemma on_fulfilled_default opts response :
  responseInterceptor opts = None ->
  on_fulfilled opts response
  = ((if flag_set (hasErrorMessage (res_config response))
         && strict_neq (business_code response) (successCode opts)
         && onError opts
      then [OnError (business_msg response)] else []),
     Fulfilled (if wants_envelope response then Envelope response
                else Payload (res_data response))).
Proof.
  intros Hhook.
  unfold on_fulfilled, notify, when, business_code, business_msg,
    wants_envelope.
  rewrite Hhook.
  destruct (flag_set _); cbn [andb];
    [destruct (strict_neq _ _); cbn [andb]; [destruct (onError opts)|]|];
    cbn; destruct (truthy _ || flag_set _); reflexivity.
Qed.

(** C1, as stated, fails: with [returnFullResponse] set, a call whose
    business code 1001 differs from the success code 200 is notified but is
    handed the full envelope, not [response.data]. *)
Lemma business_error_rule_as_stated_fails : ~ business_error_rule_as_stated.
Proof.
  intros Hrule.
  specialize (Hrule plain_options
                (envelope (descriptor (Some true) (Some true)) business_failure)).
  assert (Hgot :
    outcome (on_fulfilled plain_options
               (envelope (descriptor (Some true) (Some true)) business_failure))
    = Fulfilled (Envelope
        (envelope (descriptor (Some true) (Some true)) business_failure)))
    by reflexivity.
  rewrite Hrule in Hgot; [discriminate Hgot | reflexivity | discriminate
                          | reflexivity | discriminate].
Qed.

(** C1 (amended).  On the success path with no response-classification hook
    and a notifier configured: if the descriptor's [hasErrorMessage] is true
    and the business status code differs from the configured success code,
    the notifier is invoked exactly once, with the business [msg] field; the
    returned value is [response.data], unless the response headers carry a
    truthy [isBlob] or the descriptor asked for [returnFullResponse], in
    which case it is the full envelope. *)
Theorem business_error_notified opts response :
  responseInterceptor opts = None ->
  onError opts = true ->
  hasErrorMessage (res_config response) = Some true ->
  strict_neq (business_code response) (successCode opts) = true ->
  on_fulfilled opts response
  = ([OnError (business_msg response)],
     Fulfilled (if wants_envelope response then Envelope response
                else Payload (res_data response))).
Proof.
  intros Hhook Hsink Hflag Hcode.
  rewrite on_fulfilled_default by assumption.
  rewrite Hflag, Hcode, Hsink. reflexivity.
Qed.

Lemma business_error_notified_witness :
  on_fulfilled plain_options
    (envelope (descriptor (Some true) None) business_failure)
  = ([OnError (JStr "quota exceeded")], Fulfilled (Payload business_failure))
  /\ on_fulfilled plain_options
       {| res_status := 200;
          res_headers := {[ "isBlob" := JStr "true" ]};
          res_config := descriptor (Some true) None;
          res_data := business_failure |}
     = ([OnError (JStr "quota exceeded")],
        Fulfilled
          (Envelope
             {| res_status := 200;
                res_headers := {[ "isBlob" := JStr "true" ]};
                res_config := descriptor (Some true) None;
                res_data := business_failure |})).
Proof.
  split.
  - exact (business_error_notified plain_options
             (envelope (descriptor (Some true) None) business_failure)
             eq_refl eq_refl eq_refl eq_refl).
  - exact (business_error_notified plain_options
             {| res_status := 200;
                res_headers := {[ "isBlob" := JStr "true" ]};
                res_config := descriptor (Some true) None;
                res_data := business_failure |}
             eq_refl eq_refl eq_refl eq_refl).
Defined.

(** With the flag left out of the descriptor the success path stays silent,
    where the error path ([!== false]) would report. *)
Lemma business_error_flag_omitted :
  on_fulfilled plain_options
    (envelope (descriptor None None) business_failure)
  = ([], Fulfilled (Payload business_failure)).
Proof. reflexivity. Qed.

(** A business code equal to the success code is never notified. *)
Lemma business_success_silent opts response :
  responseInterceptor opts = None ->
  business_code response = JNum (successCode opts) ->
  trace (on_fulfilled opts response) = [].
Proof.
  intros Hhook Hcode. rewrite on_fulfilled_default by assumption.
  rewrite Hcode. cbn [strict_neq]. rewrite Z.eqb_refl. cbn [negb].
  rewrite andb_false_r. reflexivity.
Qed.

(** C7.  With no response-classification hook, a successful call returns
    the full envelope exactly when the response headers carry an [isBlob]
    entry that is truthy or the descriptor's [returnFullResponse] is true;
    in every other case it returns [response.data]. *)
Theorem return_shape opts response :
  responseInterceptor opts = None ->
  (outcome (on_fulfilled opts response) = Fulfilled (Envelope response)
   <-> (exists v, res_headers response !! "isBlob" = Some v /\ truthy v = true)
       \/ returnFullResponse (res_config response) = Some true)
  /\ (~ ((exists v,
            res_headers response !! "isBlob" = Some v /\ truthy v = true)
         \/ returnFullResponse (res_config response) = Some true) ->
      outcome (on_fulfilled opts response)
      = Fulfilled (Payload (res_data response))).
Proof.
  intros Hhook. rewrite on_fulfilled_default by assumption.
  unfold outcome; cbn [snd].
  assert (Hwant :
    wants_envelope response = true
    <-> (exists v, res_headers response !! "isBlob" = Some v /\ truthy v = true)
        \/ returnFullResponse (res_config response) = Some true).
  { unfold wants_envelope, header. rewrite orb_true_iff. split.
    - intros [Hblob | Hfull].
      + left. destruct (res_headers response !! "isBlob") as [v|].
        * exists v. split; [reflexivity | exact Hblob].
        * discriminate Hblob.
      + right. destruct (returnFullResponse (res_config response)) as [[|]|];
          [reflexivity | discriminate Hfull | discriminate Hfull].
    - intros [(v & Hv & Ht) | Hfull].
      + left. rewrite Hv. exact Ht.
      + right. rewrite Hfull. reflexivity. }
  destruct (wants_envelope response); split.
  - split; [intros _; apply Hwant; reflexivity | reflexivity].
  - intros Hnot. contradiction Hnot. apply Hwant. reflexivity.
  - split; [discriminate|]. intros Hcond. apply Hwant in Hcond.
    discriminate Hcond.
  - reflexivity.
Qed.

Lemma return_shape_witness :
  outcome (on_fulfilled plain_options
             {| res_status := 200;
                res_headers := {[ "isBlob" := JStr "true" ]};
                res_config := descriptor (Some true) None;
                res_data := business_failure |})
  = Fulfilled
      (Envelope
         {| res_status := 200;
            res_headers := {[ "isBlob" := JStr "true" ]};
            res_config := descriptor (Some true) None;
            res_data := business_failure |})
  /\ outcome (on_fulfilled plain_options
                (envelope (descriptor (Some true) (Some true))
                   business_failure))
     = Fulfilled
         (Envelope
            (envelope (descriptor (Some true) (Some true)) business_failure))
  /\ outcome (on_fulfilled plain_options
                (envelope (descriptor (Some true) None) business_failure))
     = Fulfilled (Payload business_failure)
  /\ outcome (on_fulfilled plain_options
                {| res_status := 200;
                   res_headers := {[ "isBlob" := JStr "" ]};
                   res_config := descriptor (Some true) (Some false);
                   res_data := business_failure |})
     = Fulfilled (Payload business_failure).
Proof.
  split; [|split; [|split]].
  - apply (proj2 (proj1 (return_shape plain_options
                           {| res_status := 200;
                              res_headers := {[ "isBlob" := JStr "true" ]};
                              res_config := descriptor (Some true) None;
                              res_data := business_failure |} eq_refl))).
    left. exists (JStr "true"). split; reflexivity.
  - apply (proj2 (proj1 (return_shape plain_options
                           (envelope (descriptor (Some true) (Some true))
                              business_failure) eq_refl))).
    right. reflexivity.
  - apply (proj2 (return_shape plain_options
                    (envelope (descriptor (Some true) None) business_failure)
                    eq_refl)).
    intros [(v & Hv & _) | Hfull]; [|discriminate Hfull].
    vm_compute in Hv. discriminate Hv.
  - apply (proj2 (return_shape plain_options
                    {| res_status := 200;
                       res_headers := {[ "isBlob" := JStr "" ]};
                       res_config := descriptor (Some true) (Some false);
                       res_data := business_failure |} eq_refl)).
    intros [(v & Hv & Ht) | Hfull]; [|discriminate Hfull].
    vm_compute in Hv. injection Hv as <-. discriminate Ht.
Defined.

(** C8.  With a response-classification hook configured, the hook's return
    value on the envelope is the result of every successful call, and the
    default policy does not run: the handler performs no effect (no
    notifier invocation), whatever the business code and the flags are, and
    the call's only effect is the dispatch to the transport. *)
Theorem hook_overrides opts adapter js hook config response :
  responseInterceptor opts = Some hook ->
  adapter (shape opts config) = Fulfilled response ->
  on_fulfilled opts response = ([], Fulfilled (hook response))
  /\ request opts adapter js config
     = ([Dispatch (shape opts config)], Fulfilled (hook response)).
Proof.
  intros Hhook Hok.
  assert (Hh : on_fulfilled opts response = ([], Fulfilled (hook response)))
    by (unfold on_fulfilled; rewrite Hhook; reflexivity).
  split; [exact Hh|].
  rewrite (request_on_success _ _ _ _ _ Hok), Hh. reflexivity.
Qed.

Lemma hook_overrides_witness :
  request (hooked_options (fun r => Payload (JNum (res_status r))))
    (always_ok business_failure) message_and_code
    (descriptor (Some true) (Some true))
  = ([Dispatch (descriptor (Some true) (Some true))],
     Fulfilled (Payload (JNum 200))).
Proof.
  exact (proj2 (hook_overrides
                  (hooked_options (fun r => Payload (JNum (res_status r))))
                  (always_ok business_failure) message_and_code
                  (fun r => Payload (JNum (res_status r)))
                  (descriptor (Some true) (Some true))
                  (envelope (descriptor (Some true) (Some true))
                     business_failure)
                  eq_refl eq_refl)).
Defined.

(** ** Failure path *)

(** C3, as stated, fails: a table that maps 404 to the empty string has the
    status present, yet the attached message is the fallback text. *)
Lemma status_message_rule_as_stated_fails : ~ status_message_rule_as_stated.
Proof.
  intros Hrule.
  specialize (Hrule blank_404_options message_and_code
                (http_failure (descriptor None None) 404)
                {| res_status := 404; res_headers := ∅;
                   res_config := descriptor None None;
                   res_data := JUndefined |}
                eq_refl eq_refl).
  assert (Hgot :
    outcome (@on_rejected blank_404_options message_and_code Returned
               (http_failure (descriptor None None) 404))
    = Rejected (with_message "连接错误404"
                  (http_failure (descriptor None None) 404)))
    by (vm_compute; reflexivity).
  rewrite Hrule in Hgot; [|discriminate].
  vm_compute in Hgot. discriminate Hgot.
Qed.

(** C3 (amended).  For every failure that is not a cancellation, carries an
    HTTP response, and whose descriptor's [hasErrorMessage] is not
    explicitly false, the message attached to the re-raised failure is the
    status table's entry for the status when the status is non-zero and the
    entry is a non-empty string, and is the text "连接错误" followed by the
    status in every other case. *)
Theorem status_message_resolved opts js (e : Failure) response :
  err_isCancel e = false ->
  err_response e = Some response ->
  hasErrorMessage (defaulted (err_config e) empty_config) <> Some false ->
  outcome (@on_rejected opts js Returned e)
  = Rejected
      (with_message
         (match this_statusMap opts !! res_status response with
          | Some m =>
              if negb (res_status response =? 0) && negb (String.eqb m "")
              then m else connection_error (res_status response)
          | None => connection_error (res_status response)
          end) e).
Proof.
  intros Hlive Hresp Hflag.
  rewrite on_rejected_cases, Hlive.
  destruct (hasErrorMessage _) as [[|]|]; [| congruence |];
    cbn [not_false outcome snd]; unfold resolve_message; rewrite Hresp;
    destruct (this_statusMap opts !! res_status response) as [m|];
    cbn [entry_truthy entry_text];
    try rewrite andb_false_r;
    try destruct (negb (res_status response =? 0) && negb (String.eqb m ""));
    reflexivity.
Qed.

Lemma status_message_resolved_witness :
  outcome (@on_rejected plain_options message_and_code Returned
             (http_failure (descriptor None None) 404))
  = Rejected {| err_isCancel := false;
                   err_config := Some (descriptor None None);
                   err_response :=
                     Some {| res_status := 404; res_headers := ∅;
                             res_config := descriptor None None;
                             res_data := JUndefined |};
                   err_message := "请求错误,未找到该资源";
                   err_code := Some "ERR_BAD_REQUEST" |}
  /\ outcome (@on_rejected plain_options message_and_code Returned
                (http_failure (descriptor None None) 418))
     = Rejected {| err_isCancel := false;
                   err_config := Some (descriptor None None);
                   err_response :=
                     Some {| res_status := 418; res_headers := ∅;
                             res_config := descriptor None None;
                             res_data := JUndefined |};
                   err_message := "连接错误418";
                   err_code := Some "ERR_BAD_REQUEST" |}.
Proof.
  split.
  - exact (status_message_resolved plain_options message_and_code
             (http_failure (descriptor None None) 404)
             {| res_status := 404; res_headers := ∅;
                res_config := descriptor None None; res_data := JUndefined |}
             eq_refl eq_refl ltac:(discriminate)).
  - exact (status_message_resolved plain_options message_and_code
             (http_failure (descriptor None None) 418)
             {| res_status := 418; res_headers := ∅;
                res_config := descriptor None None; res_data := JUndefined |}
             eq_refl eq_refl ltac:(discriminate)).
Defined.

(** C4.  For every failure that is not a cancellation, carries no HTTP
    response, and whose descriptor's [hasErrorMessage] is not explicitly
    false, the failure is re-raised with the message "连接服务器失败",
    replaced by "服务器响应超时，请刷新当前页" exactly when the serialised
    failure contains "timeout"; nothing else of the failure changes.  The
    failure is serialised as the handler holds it at that point, the
    generic message already attached. *)
Theorem network_message_resolved opts js (e : Failure) :
  err_isCancel e = false ->
  err_response e = None ->
  hasErrorMessage (defaulted (err_config e) empty_config) <> Some false ->
  exists e',
    outcome (@on_rejected opts js Returned e) = Rejected e'
    /\ err_message e'
       = (if includes
               (js {| err_isCancel := err_isCancel e;
                      err_config := err_config e;
                      err_response := err_response e;
                      err_message := "连接服务器失败";
                      err_code := err_code e |}) "timeout"
          then "服务器响应超时，请刷新当前页"
          else "连接服务器失败")
    /\ err_isCancel e' = err_isCancel e
    /\ err_config e' = err_config e
    /\ err_response e' = err_response e
    /\ err_code e' = err_code e.
Proof.
  intros Hlive Hresp Hflag.
  exists (resolve_message opts js e). split.
  - rewrite on_rejected_cases, Hlive.
    destruct (hasErrorMessage _) as [[|]|]; [reflexivity | congruence
                                             | reflexivity].
  - unfold resolve_message. rewrite Hresp.
    unfold with_message, connection_failed, response_timed_out.
    cbn [err_isCancel err_config err_response err_message err_code].
    rewrite ?Hresp.
    destruct (includes _ _); cbn; repeat split; reflexivity.
Qed.

Lemma network_message_resolved_witness :
  (exists e',
     outcome (@on_rejected plain_options message_and_code Returned
                (network_failure (descriptor None None) "Network Error"))
     = Rejected e'
     /\ err_message e' = "连接服务器失败"
     /\ err_isCancel e' = false
     /\ err_config e' = Some (descriptor None None)
     /\ err_response e' = None
     /\ err_code e' = Some "ERR_NETWORK")
  /\ (exists e',
        outcome (@on_rejected plain_options with_timeout_setting Returned
                   (network_failure (descriptor None None) "Network Error"))
        = Rejected e'
        /\ err_message e' = "服务器响应超时，请刷新当前页"
        /\ err_isCancel e' = false
        /\ err_config e' = Some (descriptor None None)
        /\ err_response e' = None
        /\ err_code e' = Some "ERR_NETWORK").
Proof.
  split.
  - exact (network_message_resolved plain_options message_and_code
             (network_failure (descriptor None None) "Network Error")
             eq_refl eq_refl ltac:(discriminate)).
  - exact (network_message_resolved plain_options with_timeout_setting
             (network_failure (descriptor None None) "Network Error")
             eq_refl eq_refl ltac:(discriminate)).
Defined.

(** The serialiser never sees the message the failure arrived with: a
    "timeout" that occurs only there is not detected. *)
Lemma original_message_not_inspected :
  outcome (@on_rejected plain_options message_and_code Returned
             (network_failure (descriptor None None)
                "timeout of 5000ms exceeded"))
  = Rejected (with_message "连接服务器失败"
                (network_failure (descriptor None None)
                   "timeout of 5000ms exceeded")).
Proof. vm_compute; reflexivity. Qed.

(** C5.  A failure that is an explicit cancellation is re-raised as it is:
    the error handler performs no effect and leaves the failure unchanged
    (no message is resolved, the notifier is not invoked), and so does the
    call, whose only effect is the dispatch; the [hasErrorMessage] flag
    plays no part. *)
Theorem cancellation_reraised opts adapter js config (e : Failure) :
  adapter (shape opts config) = Rejected e ->
  err_isCancel e = true ->
  @on_rejected opts js Returned e = ([], Rejected e)
  /\ request opts adapter js config
     = ([Dispatch (shape opts config)], Rejected e).
Proof.
  intros Hfail Hcancel.
  assert (Hh : @on_rejected opts js Returned e = ([], Rejected e))
    by (rewrite on_rejected_cases, Hcancel; reflexivity).
  split; [exact Hh|].
  rewrite (request_on_failure _ _ _ _ _ Hfail), Hh. reflexivity.
Qed.

Lemma cancellation_reraised_witness :
  request plain_options (always_fails cancellation) message_and_code
    (descriptor (Some true) None)
  = ([Dispatch (descriptor (Some true) None)],
     Rejected (cancellation (descriptor (Some true) None))).
Proof.
  exact (proj2 (cancellation_reraised plain_options
                  (always_fails cancellation) message_and_code
                  (descriptor (Some true) None)
                  (cancellation (descriptor (Some true) None))
                  eq_refl eq_refl)).
Defined.

(** The older JavaScript handler has no cancellation check: there a
    cancellation is annotated and reported like a network failure. *)
Lemma legacy_cancellation_reported :
  @Legacy.on_rejected plain_options message_and_code Returned
    (cancellation (descriptor (Some true) None))
  = ([OnError (JStr "连接服务器失败")],
     Rejected (with_message "连接服务器失败"
                 (cancellation (descriptor (Some true) None)))).
Proof. vm_compute; reflexivity. Qed.

(** C2.  When the descriptor carried by what the transport answered (the
    envelope's [config], the failure's [config]) has [hasErrorMessage]
    false, the call never invokes the notifier: not on success, whatever
    the business code, and not on failure, with or without an HTTP
    status. *)
Theorem silent_when_flag_false opts adapter js config :
  answers_with_flag (Some false) (adapter (shape opts config)) ->
  notifications (request opts adapter js config) = [].
Proof.
  intros Hflag.
  destruct (adapter (shape opts config)) as [response|e] eqn:Hans.
  - rewrite (request_on_success _ _ _ _ _ Hans).
    cbn in Hflag. unfold notifications, trace; cbn [fst filter is_notification].
    destruct (responseInterceptor opts) as [hook|] eqn:Hhook.
    + unfold on_fulfilled; rewrite Hhook; reflexivity.
    + rewrite on_fulfilled_default by assumption. rewrite Hflag. reflexivity.
  - rewrite (request_on_failure _ _ _ _ _ Hans).
    destruct Hflag as (c & Hc & Hfalse).
    unfold notifications, trace; cbn [fst filter is_notification].
    rewrite on_rejected_cases, Hc. cbn [defaulted]. rewrite Hfalse.
    destruct (err_isCancel e); reflexivity.
Qed.

Lemma silent_when_flag_false_witness :
  notifications
    (request plain_options (always_ok business_failure) message_and_code
       (descriptor (Some false) None)) = []
  /\ notifications
       (request plain_options (always_fails (fun c => http_failure c 500))
          message_and_code (descriptor (Some false) None)) = []
  /\ notifications
       (request plain_options
          (always_fails (fun c => network_failure c "Network Error"))
          message_and_code (descriptor (Some false) None)) = [].
Proof.
  split; [|split].
  - exact (silent_when_flag_false plain_options (always_ok business_failure)
             message_and_code (descriptor (Some false) None) eq_refl).
  - exact (silent_when_flag_false plain_options
             (always_fails (fun c => http_failure c 500)) message_and_code
             (descriptor (Some false) None)
             (ex_intro _ (descriptor (Some false) None)
                (conj eq_refl eq_refl))).
  - exact (silent_when_flag_false plain_options
             (always_fails (fun c => network_failure c "Network Error"))
             message_and_code (descriptor (Some false) None)
             (ex_intro _ (descriptor (Some false) None)
                (conj eq_refl eq_refl))).
Defined.

(** A failure that carries no descriptor at all is reported: the handler
    reads the flag from [error.config || {}]. *)
Lemma failure_without_config_reported :
  @on_rejected plain_options message_and_code Returned (type_error "boom")
  = ([OnError (JStr "连接服务器失败")],
     Rejected (with_message "连接服务器失败" (type_error "boom"))).
Proof. vm_compute; reflexivity. Qed.

(** C6.  Whenever the transport fails, each of [request], [get], [post],
    [put] and [delete] rejects with that failure, its message possibly
    replaced; it is never turned into a fulfilled result. *)
Theorem failure_always_reraised opts adapter js (c : Call) (e : Failure) :
  adapter (shape opts (descriptor_of c)) = Rejected e ->
  reraises (perform opts adapter js c) e
  /\ forall v, outcome (perform opts adapter js c) <> Fulfilled v.
Proof.
  intros Hfail.
  rewrite perform_is_request, (request_on_failure _ _ _ _ _ Hfail).
  destruct (on_rejected_reraises opts js Returned e) as (e' & He' & Hann).
  split.
  - exists e'; split; assumption.
  - intros v. unfold outcome at 1; cbn [snd]. rewrite He'. discriminate.
Qed.

Lemma failure_always_reraised_witness :
  reraises
    (perform plain_options (always_fails (fun c => http_failure c 500))
       message_and_code (CallGet "/users" JUndefined None None))
    (http_failure (get_descriptor "/users" JUndefined None None) 500)
  /\ forall v,
       outcome
         (perform plain_options (always_fails (fun c => http_failure c 500))
            message_and_code (CallGet "/users" JUndefined None None))
       <> Fulfilled v.
Proof.
  exact (failure_always_reraised plain_options
           (always_fails (fun c => http_failure c 500)) message_and_code
           (CallGet "/users" JUndefined None None)
           (http_failure (get_descriptor "/users" JUndefined None None) 500)
           eq_refl).
Defined.

(** ** File transfer helpers *)

(** [upload] hands its descriptor to [request]. *)
Lemma upload_delegates opts adapter js u formData config :
  upload opts adapter js u formData config
  = request opts adapter js
      (upload_descriptor u formData (defaulted config empty_config)).
Proof. reflexivity. Qed.

(** Where the extra configuration has no [headers] of its own, the
    descriptor carries the multipart content type. *)
Lemma upload_multipart_by_default u formData config :
  headers config = None ->
  headers (upload_descriptor u formData config)
  = Some {[ "Content-Type" := JStr "multipart/form-data" ]}.
Proof.
  intros Hnone. unfold upload_descriptor, spread, multipart_headers.
  cbn [headers]. rewrite Hnone. cbn [or_else defaulted].
  reflexivity.
Qed.

(** Where it has, the trailing [...config] puts them in place of the merged
    headers. *)
Lemma upload_headers_replaced u formData config hs :
  headers config = Some hs ->
  headers (upload_descriptor u formData config) = Some hs.
Proof.
  intros Hsome. unfold upload_descriptor, spread. cbn [headers].
  rewrite Hsome. reflexivity.
Qed.

(** C9 fails on the code: an upload whose extra configuration brings an
    [Authorization] header and no [Content-Type] goes out as a POST handed
    to [request], with the [Authorization] header alone; the multipart
    content type the rule promises is not there. *)
Theorem upload_loses_content_type :
  upload plain_options (always_ok JNull) message_and_code "/files"
    (JStr "form") (Some authorised_only)
  = request plain_options (always_ok JNull) message_and_code
      (upload_descriptor "/files" (JStr "form") authorised_only)
  /\ method (upload_descriptor "/files" (JStr "form") authorised_only)
     = Some "post"
  /\ headers (upload_descriptor "/files" (JStr "form") authorised_only)
     = Some {[ "Authorization" := JStr "Bearer t" ]}
  /\ header
       (defaulted
          (headers (upload_descriptor "/files" (JStr "form") authorised_only))
          ∅) "Content-Type"
     = JUndefined
  /\ ~ upload_content_type_rule "/files" (JStr "form") authorised_only.
Proof.
  split; [reflexivity|].
  split; [reflexivity|].
  split; [reflexivity|].
  split; [reflexivity|].
  unfold upload_content_type_rule. vm_compute. discriminate.
Qed.

(** The older JavaScript [upload] builds the same descriptor. *)
Lemma legacy_upload_same_descriptor opts adapter js u formData config :
  Legacy.upload opts adapter js u formData config
  = Legacy.request opts adapter js
      (upload_descriptor u formData (defaulted config empty_config)).
Proof. reflexivity. Qed.

(** C10.  Without a global [window], [download] fulfils with no value; its
    only effect is a console warning: the transport is not invoked and
    nothing is raised. *)
Theorem download_outside_browser opts adapter js u ps config :
  download opts adapter js false u ps config
  = ([ConsoleWarn "Download is not supported in non-browser environment"],
     Fulfilled tt)
  /\ dispatches (download opts adapter js false u ps config) = [].
Proof. split; reflexivity. Qed.

(** The older JavaScript [download] has no such guard: the transport is
    invoked before [window] is found missing, and the call rejects. *)
Lemma legacy_download_outside_browser :
  Legacy.download plain_options (always_ok (JStr "bytes")) message_and_code
    false "/report" JUndefined None
  = ([Dispatch
        {| method := Some "get"; url := Some "/report"; params := JUndefined;
           data := JUndefined; headers := None; responseType := Some "blob";
           hasErrorMessage := None; returnFullResponse := None;
           filename := None |};
      ConsoleError "Download Error:" (type_error "window is not defined")],
     Rejected (type_error "window is not defined")).
Proof. vm_compute; reflexivity. Qed.

(** * Further properties of the gateway *)

(** ** Shared facts *)

Lemma strict_neq_true_iff (v : JsVal) (n : Z) :
  strict_neq v n = true <-> v <> JNum n.
Proof.
  destruct v; cbn; try (split; [discriminate | reflexivity]).
  destruct (Z.eqb_spec n0 n) as [->|Hne]; cbn.
  - split; [discriminate | intros H; contradiction H; reflexivity].
  - split; [intros _ H; injection H; exact Hne | reflexivity].
Qed.

Lemma or_else_none {A : Type} (x : option A) : or_else x None = x.
Proof. destruct x; reflexivity. Qed.

Lemma verb_descriptor_flags (c : Call) :
  is_verb c = true ->
  hasErrorMessage (descriptor_of c) = Some (defaulted (flag_argument c) true)
  /\ returnFullResponse (descriptor_of c) = None.
Proof. destruct c; [discriminate | | | |]; intros _; split; reflexivity. Qed.

(** The handlers invoke the notifier at most once. *)
Lemma on_fulfilled_notifies_once opts response :
  (length (List.filter is_notification (trace (on_fulfilled opts response)))
   <= 1)%nat
  /\ (onError opts = false ->
      List.filter is_notification (trace (on_fulfilled opts response)) = []).
Proof.
  destruct (responseInterceptor opts) as [hook|] eqn:Hhook.
  - unfold on_fulfilled; rewrite Hhook; cbn; split; [lia | reflexivity].
  - rewrite on_fulfilled_default by assumption.
    unfold trace; cbn [fst]. split.
    + destruct (_ && _); cbn; lia.
    + intros ->. rewrite andb_false_r. reflexivity.
Qed.

Lemma on_rejected_notifies_once opts js (A : Type) (e : Failure) :
  (length (List.filter is_notification (trace (@on_rejected opts js A e)))
   <= 1)%nat
  /\ (onError opts = false ->
      List.filter is_notification (trace (@on_rejected opts js A e)) = []).
Proof.
  rewrite on_rejected_cases.
  destruct (err_isCancel e); [cbn; split; [lia | reflexivity]|].
  destruct (not_false _); [|cbn; split; [lia | reflexivity]].
  destruct (onError opts); cbn; split; try lia; try reflexivity; discriminate.
Qed.

(** The message of a failure that carries a response. *)
Lemma resolve_message_http opts js (e : Failure) response :
  err_response e = Some response ->
  resolve_message opts js e
  = with_message
      (if negb (res_status response =? 0)
          && entry_truthy (this_statusMap opts !! res_status response)
       then entry_text (this_statusMap opts !! res_status response)
       else connection_error (res_status response)) e.
Proof.
  intros Hresp. unfold resolve_message. rewrite Hresp.
  destruct (_ && _); reflexivity.
Qed.

(** Every entry of the built-in table is usable: no key is 0 and no text is
    empty. *)
Lemma default_table_entries (status : Z) (m : string) :
  _statusMap !! status = Some m -> status <> 0 /\ m <> "".
Proof.
  assert (Hall : map_Forall (fun k t => k <> 0 /\ t <> "") _statusMap).
  { apply map_Forall_to_list. vm_compute.
    repeat (constructor; [split; discriminate|]). constructor. }
  intros Hin. exact (Hall status m Hin).
Qed.

(** ** Success path, continued *)

(** X1.  With no hook, a notifier configured and [hasErrorMessage] true, a
    successful call is silent exactly when the payload's [code] is the
    number equal to the success code: a missing code, a code of another
    type (the string "200") and a different number are all reported. *)
Theorem success_silent_iff opts response :
  responseInterceptor opts = None ->
  onError opts = true ->
  hasErrorMessage (res_config response) = Some true ->
  trace (on_fulfilled opts response) = []
  <-> business_code response = JNum (successCode opts).
Proof.
  intros Hhook Hsink Hflag.
  rewrite on_fulfilled_default by assumption.
  rewrite Hflag, Hsink. unfold trace; cbn [fst flag_set andb].
  rewrite andb_true_r.
  destruct (strict_neq (business_code response) (successCode opts)) eqn:Hneq.
  - apply strict_neq_true_iff in Hneq. split; [discriminate | contradiction].
  - split; [intros _ | reflexivity].
    destruct (business_code response); try discriminate Hneq.
    cbn in Hneq. apply negb_false_iff, Z.eqb_eq in Hneq. congruence.
Qed.

Lemma success_silent_iff_witness :
  (trace (on_fulfilled plain_options
            (envelope (descriptor (Some true) None)
               (JObj [("code", JNum 200); ("data", JStr "ok")]))) = []
   <-> JNum 200 = JNum 200)
  /\ (trace (on_fulfilled plain_options
               (envelope (descriptor (Some true) None)
                  (JObj [("code", JStr "200")]))) = []
      <-> JStr "200" = JNum 200)
  /\ (trace (on_fulfilled plain_options
               (envelope (descriptor (Some true) None) (JStr "plain text")))
      = []
      <-> JUndefined = JNum 200).
Proof.
  split; [|split].
  - exact (success_silent_iff plain_options
             (envelope (descriptor (Some true) None)
                (JObj [("code", JNum 200); ("data", JStr "ok")]))
             eq_refl eq_refl eq_refl).
  - exact (success_silent_iff plain_options
             (envelope (descriptor (Some true) None)
                (JObj [("code", JStr "200")]))
             eq_refl eq_refl eq_refl).
  - exact (success_silent_iff plain_options
             (envelope (descriptor (Some true) None) (JStr "plain text"))
             eq_refl eq_refl eq_refl).
Defined.

(** X2.  When the descriptor carried by the envelope leaves
    [hasErrorMessage] out, the success handler performs no effect, whatever
    the configuration and the business code: the flag is tested for
    truthiness there. *)
Theorem success_silent_when_flag_omitted opts response :
  hasErrorMessage (res_config response) = None ->
  trace (on_fulfilled opts response) = [].
Proof.
  intros Hflag.
  destruct (responseInterceptor opts) as [hook|] eqn:Hhook.
  - unfold on_fulfilled; rewrite Hhook; reflexivity.
  - rewrite on_fulfilled_default by assumption. rewrite Hflag. reflexivity.
Qed.

Lemma success_silent_when_flag_omitted_witness :
  trace (on_fulfilled plain_options
           (envelope (descriptor None None) business_failure)) = [].
Proof.
  exact (success_silent_when_flag_omitted plain_options
           (envelope (descriptor None None) business_failure) eq_refl).
Defined.

(** X3.  [get], [post], [put] and [delete] report business errors unless
    told not to.  With no response hook and a notifier, a verb called with
    the flag omitted or true, answered by an envelope whose [config] carries
    the two flags of the descriptor the verb built and whose code is not
    the success code, notifies exactly once, with [msg], and returns
    [response.data]; the verbs never ask for the full envelope, which comes
    back only under a truthy [isBlob] response header. *)
Theorem verb_reports_by_default opts adapter js (c : Call) response :
  is_verb c = true ->
  flag_argument c <> Some false ->
  responseInterceptor opts = None ->
  onError opts = true ->
  adapter (shape opts (descriptor_of c)) = Fulfilled response ->
  hasErrorMessage (res_config response) = hasErrorMessage (descriptor_of c) ->
  returnFullResponse (res_config response)
  = returnFullResponse (descriptor_of c) ->
  business_code response <> JNum (successCode opts) ->
  notifications (perform opts adapter js c) = [OnError (business_msg response)]
  /\ outcome (perform opts adapter js c)
     = Fulfilled
         (match res_headers response !! "isBlob" with
          | Some v =>
              if truthy v then Envelope response
              else Payload (res_data response)
          | None => Payload (res_data response)
          end).
Proof.
  intros Hverb Hflag Hres Hsink Hans Hecho Hechofull Hcode.
  destruct (verb_descriptor_flags c Hverb) as [Hf Hfull].
  rewrite perform_is_request, (request_on_success _ _ _ _ _ Hans).
  rewrite on_fulfilled_default by assumption.
  unfold wants_envelope, header. rewrite Hecho, Hechofull, Hf, Hfull, Hsink.
  apply strict_neq_true_iff in Hcode. rewrite Hcode.
  assert (Hd : defaulted (flag_argument c) true = true)
    by (destruct (flag_argument c) as [[|]|]; [reflexivity | congruence
                                              | reflexivity]).
  rewrite Hd. unfold notifications, trace, outcome; cbn. split; [reflexivity|].
  destruct (res_headers response !! "isBlob") as [v|]; cbn;
    [destruct (truthy v)|]; reflexivity.
Qed.

Lemma verb_reports_by_default_witness :
  notifications
    (perform plain_options (answer_with_defaults business_failure)
       message_and_code (CallPost "/users" (JStr "body") None None))
  = [OnError (JStr "quota exceeded")]
  /\ outcome
       (perform plain_options (answer_with_defaults business_failure)
          message_and_code (CallPost "/users" (JStr "body") None None))
     = Fulfilled (Payload business_failure).
Proof.
  assert (Hflag : flag_argument (CallPost "/users" (JStr "body") None None)
                  <> Some false) by discriminate.
  assert (Hcode :
    business_code
      (defaults_envelope (post_descriptor "/users" (JStr "body") None None)
         business_failure)
    <> JNum (successCode plain_options)) by (vm_compute; discriminate).
  exact (verb_reports_by_default plain_options
           (answer_with_defaults business_failure) message_and_code
           (CallPost "/users" (JStr "body") None None)
           (defaults_envelope (post_descriptor "/users" (JStr "body") None None)
              business_failure)
           eq_refl Hflag eq_refl eq_refl eq_refl eq_refl eq_refl Hcode).
Defined.

(** X4.  [upload] does not default the flag: when the extra configuration
    leaves [hasErrorMessage] out, a successful upload answered by an
    envelope whose [config] carries the flag of the descriptor [upload]
    built never invokes the notifier, whatever the business code. *)
Theorem upload_silent_on_success opts adapter js u formData config response :
  hasErrorMessage (defaulted config empty_config) = None ->
  adapter
    (shape opts (upload_descriptor u formData (defaulted config empty_config)))
  = Fulfilled response ->
  hasErrorMessage (res_config response)
  = hasErrorMessage
      (upload_descriptor u formData (defaulted config empty_config)) ->
  notifications (upload opts adapter js u formData config) = [].
Proof.
  intros Hflag Hans Hecho.
  unfold upload. rewrite (request_on_success _ _ _ _ _ Hans).
  unfold notifications, trace; cbn [fst List.filter is_notification].
  assert (Hnone : hasErrorMessage (res_config response) = None).
  { rewrite Hecho. unfold upload_descriptor, spread; cbn [hasErrorMessage].
    rewrite or_else_none. exact Hflag. }
  destruct (responseInterceptor opts) as [hook|] eqn:Hhook.
  - unfold on_fulfilled; rewrite Hhook; reflexivity.
  - rewrite on_fulfilled_default by assumption. rewrite Hnone. reflexivity.
Qed.

Lemma upload_silent_on_success_witness :
  notifications
    (upload plain_options (answer_with_defaults business_failure)
       message_and_code "/files" (JStr "form") None) = [].
Proof.
  exact (upload_silent_on_success plain_options
           (answer_with_defaults business_failure) message_and_code
           "/files" (JStr "form") None
           (defaults_envelope
              (upload_descriptor "/files" (JStr "form") empty_config)
              business_failure)
           eq_refl eq_refl eq_refl).
Defined.

(** ** Failure path, continued *)

(** X5.  What the notifier is told is what the caller catches: for every
    failure that is not a cancellation and whose flag is not explicitly
    false (a failure with no [config] included), with a notifier
    configured, the handler invokes the notifier exactly once, with the
    very message it attached to the failure it re-raises. *)
Theorem reported_message_is_attached opts js (e : Failure) :
  err_isCancel e = false ->
  hasErrorMessage (defaulted (err_config e) empty_config) <> Some false ->
  onError opts = true ->
  exists e',
    @on_rejected opts js Returned e
    = ([OnError (JStr (err_message e'))], Rejected e')
    /\ annotated e e'.
Proof.
  intros Hlive Hflag Hsink.
  exists (resolve_message opts js e). split.
  - rewrite on_rejected_cases, Hlive, Hsink.
    destruct (hasErrorMessage _) as [[|]|]; [reflexivity | congruence
                                             | reflexivity].
  - apply resolve_message_annotated.
Qed.

Lemma reported_message_is_attached_witness :
  exists e',
    @on_rejected plain_options message_and_code Returned (type_error "boom")
    = ([OnError (JStr (err_message e'))], Rejected e')
    /\ annotated (type_error "boom") e'.
Proof.
  exact (reported_message_is_attached plain_options message_and_code
           (type_error "boom") eq_refl ltac:(discriminate) eq_refl).
Defined.

(** X6.  With [hasErrorMessage] false on the failure's descriptor, the
    handler does nothing at all: the failure is re-raised exactly as it
    came, its original message untouched. *)
Theorem opted_out_failure_untouched opts js (e : Failure) c :
  err_config e = Some c ->
  hasErrorMessage c = Some false ->
  @on_rejected opts js Returned e = ([], Rejected e).
Proof.
  intros Hc Hflag.
  rewrite on_rejected_cases, Hc. cbn [defaulted]. rewrite Hflag.
  destruct (err_isCancel e); reflexivity.
Qed.

Lemma opted_out_failure_untouched_witness :
  @on_rejected plain_options message_and_code Returned
    (http_failure (descriptor (Some false) None) 500)
  = ([], Rejected (http_failure (descriptor (Some false) None) 500)).
Proof.
  exact (opted_out_failure_untouched plain_options message_and_code
           (http_failure (descriptor (Some false) None) 500)
           (descriptor (Some false) None) eq_refl eq_refl).
Defined.

(** X7.  With the built-in table (no [statusMap] option), presence alone
    decides: the attached message is the table's entry when the status is
    in the table and "连接错误" followed by the status when it is not.  No
    built-in entry is empty and no built-in key is 0. *)
Theorem default_table_message opts js (e : Failure) response :
  statusMap opts = None ->
  err_isCancel e = false ->
  err_response e = Some response ->
  hasErrorMessage (defaulted (err_config e) empty_config) <> Some false ->
  outcome (@on_rejected opts js Returned e)
  = Rejected
      (with_message
         (match _statusMap !! res_status response with
          | Some m => m
          | None => connection_error (res_status response)
          end) e).
Proof.
  intros Htbl Hlive Hresp Hflag.
  rewrite on_rejected_cases, Hlive.
  assert (Hon : not_false
                  (hasErrorMessage (defaulted (err_config e) empty_config))
                = true)
    by (destruct (hasErrorMessage _) as [[|]|]; [reflexivity | congruence
                                                | reflexivity]).
  rewrite Hon. cbn [outcome snd].
  rewrite (resolve_message_http opts js e response Hresp).
  unfold this_statusMap. rewrite Htbl.
  destruct (_statusMap !! res_status response) as [m|] eqn:Hin.
  - destruct (default_table_entries _ _ Hin) as [Hkey Htext].
    cbn [entry_truthy entry_text].
    apply Z.eqb_neq in Hkey. rewrite Hkey.
    apply String.eqb_neq in Htext. rewrite Htext. reflexivity.
  - cbn [entry_truthy]. rewrite andb_false_r. reflexivity.
Qed.

Lemma default_table_message_witness :
  outcome (@on_rejected plain_options message_and_code Returned
             (http_failure (descriptor None None) 503))
  = Rejected {| err_isCancel := false;
                   err_config := Some (descriptor None None);
                   err_response :=
                     Some {| res_status := 503; res_headers := ∅;
                             res_config := descriptor None None;
                             res_data := JUndefined |};
                   err_message := "服务不可用";
                   err_code := Some "ERR_BAD_REQUEST" |}.
Proof.
  exact (default_table_message plain_options message_and_code
           (http_failure (descriptor None None) 503)
           {| res_status := 503; res_headers := ∅;
              res_config := descriptor None None; res_data := JUndefined |}
           eq_refl eq_refl eq_refl ltac:(discriminate)).
Defined.

(** X8.  A [statusMap] option replaces the built-in table wholesale: a
    status the custom table lacks gets the fallback text, also when the
    built-in table has an entry for it. *)
Theorem custom_table_replaces_default opts js tbl (e : Failure) response :
  statusMap opts = Some tbl ->
  tbl !! res_status response = None ->
  err_isCancel e = false ->
  err_response e = Some response ->
  hasErrorMessage (defaulted (err_config e) empty_config) <> Some false ->
  outcome (@on_rejected opts js Returned e)
  = Rejected (with_message (connection_error (res_status response)) e).
Proof.
  intros Htbl Hmiss Hlive Hresp Hflag.
  rewrite on_rejected_cases, Hlive.
  assert (Hon : not_false
                  (hasErrorMessage (defaulted (err_config e) empty_config))
                = true)
    by (destruct (hasErrorMessage _) as [[|]|]; [reflexivity | congruence
                                                | reflexivity]).
  rewrite Hon. cbn [outcome snd].
  rewrite (resolve_message_http opts js e response Hresp).
  unfold this_statusMap. rewrite Htbl, Hmiss.
  cbn [entry_truthy]. rewrite andb_false_r. reflexivity.
Qed.

Lemma custom_table_replaces_default_witness :
  _statusMap !! 500 = Some "服务器端出错"
  /\ outcome (@on_rejected custom_table_options message_and_code Returned
                (http_failure (descriptor None None) 500))
     = Rejected {| err_isCancel := false;
                   err_config := Some (descriptor None None);
                   err_response :=
                     Some {| res_status := 500; res_headers := ∅;
                             res_config := descriptor None None;
                             res_data := JUndefined |};
                   err_message := "连接错误500";
                   err_code := Some "ERR_BAD_REQUEST" |}.
Proof.
  split; [reflexivity|].
  exact (custom_table_replaces_default custom_table_options message_and_code
           {[ 404 := "资源不存在" ]}
           (http_failure (descriptor None None) 500)
           {| res_status := 500; res_headers := ∅;
              res_config := descriptor None None; res_data := JUndefined |}
           eq_refl eq_refl eq_refl eq_refl ltac:(discriminate)).
Defined.

(** ** The pipeline as a whole *)

(** X11.  Each of the five operations invokes the notifier at most once per
    call, and never when no notifier was configured. *)
Theorem notifier_at_most_once opts adapter js (c : Call) :
  (length (notifications (perform opts adapter js c)) <= 1)%nat
  /\ (onError opts = false -> notifications (perform opts adapter js c) = []).
Proof.
  rewrite perform_is_request. unfold notifications.
  destruct (adapter (shape opts (descriptor_of c))) as [response|e] eqn:Hans.
  - rewrite (request_on_success _ _ _ _ _ Hans).
    unfold trace at 1 2; cbn [fst List.filter is_notification].
    apply on_fulfilled_notifies_once.
  - rewrite (request_on_failure _ _ _ _ _ Hans).
    unfold trace at 1 2; cbn [fst List.filter is_notification].
    apply on_rejected_notifies_once.
Qed.

Lemma notifier_at_most_once_witness :
  notifications
    (perform quiet_options (always_fails (fun c => http_failure c 500))
       message_and_code (CallGet "/users" JUndefined None None)) = [].
Proof.
  exact (proj2 (notifier_at_most_once quiet_options
                  (always_fails (fun c => http_failure c 500))
                  message_and_code (CallGet "/users" JUndefined None None))
           eq_refl).
Defined.

(** X12.  A call fulfils exactly when the transport does: the gateway
    neither turns a transport success into a failure nor a failure into a
    success (business errors are notified, not raised). *)
Theorem fulfils_iff_transport_fulfils opts adapter js (c : Call) :
  (exists response,
     adapter (shape opts (descriptor_of c)) = Fulfilled response)
  <-> (exists v, outcome (perform opts adapter js c) = Fulfilled v).
Proof.
  rewrite perform_is_request.
  destruct (adapter (shape opts (descriptor_of c))) as [response|e] eqn:Hans.
  - rewrite (request_on_success _ _ _ _ _ Hans). unfold outcome at 1; cbn [snd].
    split; intros _; [|exists response; reflexivity].
    destruct (responseInterceptor opts) as [hook|] eqn:Hhook.
    + unfold on_fulfilled; rewrite Hhook; eexists; reflexivity.
    + rewrite on_fulfilled_default by assumption. eexists; reflexivity.
  - rewrite (request_on_failure _ _ _ _ _ Hans). unfold outcome at 1; cbn [snd].
    destruct (on_rejected_reraises opts js Returned e) as (e' & He' & _).
    rewrite He'. split; intros [x Hx]; discriminate Hx.
Qed.

Lemma fulfils_iff_transport_fulfils_witness :
  exists v,
    outcome (perform plain_options (always_ok business_failure)
               message_and_code (CallGet "/users" JUndefined None None))
    = Fulfilled v.
Proof.
  exact (proj1 (fulfils_iff_transport_fulfils plain_options
                  (always_ok business_failure) message_and_code
                  (CallGet "/users" JUndefined None None))
           (ex_intro _ (envelope (get_descriptor "/users" JUndefined None None)
                          business_failure) eq_refl)).
Defined.

(** ** [download] in the browser *)

Lemma download_in_browser opts adapter js u ps config :
  download opts adapter js true u ps config
  = try_catch
      (response <- service_request opts adapter js
                     (download_descriptor u ps config) ;;
       content <- member_data response ;;
       tell (SaveFile content (suggested_name (defaulted config empty_config))) ;;
       ret tt)
      (fun error => tell (ConsoleError "Download Error:" error) ;; throw error).
Proof. reflexivity. Qed.

Lemma service_request_on_success opts adapter js config response :
  adapter (shape opts config) = Fulfilled response ->
  service_request opts adapter js config
  = (Dispatch (shape opts config) :: trace (on_fulfilled opts response),
     outcome (on_fulfilled opts response)).
Proof.
  intros Hans. rewrite <- request_is_service_request.
  apply request_on_success; assumption.
Qed.

Lemma service_request_on_failure opts adapter js config e :
  adapter (shape opts config) = Rejected e ->
  service_request opts adapter js config
  = (Dispatch (shape opts config) :: trace (@on_rejected opts js Returned e),
     outcome (@on_rejected opts js Returned e)).
Proof.
  intros Hans. rewrite <- request_is_service_request.
  apply request_on_failure; assumption.
Qed.

(** The success handler saves nothing and always fulfils. *)
Lemma on_fulfilled_shape opts response :
  exists t x,
    on_fulfilled opts response = (t, Fulfilled x)
    /\ List.filter is_dispatch t = []
    /\ List.filter is_save t = [].
Proof.
  destruct (responseInterceptor opts) as [hook|] eqn:Hhook.
  - exists [], (hook response). unfold on_fulfilled; rewrite Hhook.
    repeat split.
  - rewrite on_fulfilled_default by assumption.
    eexists _, _. split; [reflexivity|].
    destruct (_ && _); split; reflexivity.
Qed.

(** The error handler saves nothing and always rejects, with the failure
    possibly re-annotated. *)
Lemma on_rejected_shape opts js (e : Failure) :
  exists t e',
    @on_rejected opts js Returned e = (t, Rejected e')
    /\ annotated e e'
    /\ List.filter is_dispatch t = []
    /\ List.filter is_save t = [].
Proof.
  rewrite on_rejected_cases.
  destruct (err_isCancel e).
  - exists [], e. repeat split. apply annotated_refl.
  - destruct (not_false _).
    + eexists _, _. split; [reflexivity|].
      split; [apply resolve_message_annotated|].
      destruct (onError opts); split; reflexivity.
    + exists [], e. repeat split. apply annotated_refl.
Qed.

(** X13.  In the browser, under the default policy, what [download] saves
    is [data] of what the instance handed back.  When the full envelope came
    back ([isBlob] header or [returnFullResponse]) that is the response
    body; otherwise the interceptor has already unwrapped the body, and the
    file gets the body's own [data] property, [undefined] for a body that
    has none.  The call fulfils and offers exactly one file, under
    [config.filename || 'file']. *)
Theorem download_saved_content opts adapter js u ps config response :
  responseInterceptor opts = None ->
  adapter (shape opts (download_descriptor u ps config)) = Fulfilled response ->
  (wants_envelope response = false ->
   res_data response <> JUndefined /\ res_data response <> JNull) ->
  outcome (download opts adapter js true u ps config) = Fulfilled tt
  /\ saves (download opts adapter js true u ps config)
     = [SaveFile
          (if wants_envelope response then res_data response
           else prop (res_data response) "data")
          (suggested_name (defaulted config empty_config))].
Proof.
  intros Hhook Hans Hbody.
  rewrite download_in_browser, (service_request_on_success _ _ _ _ _ Hans).
  rewrite on_fulfilled_default by assumption.
  unfold trace at 1, outcome at 1; cbn [fst snd].
  destruct (wants_envelope response).
  - destruct (_ && _); split; reflexivity.
  - destruct (Hbody eq_refl) as [Hu Hn].
    destruct (res_data response); try contradiction;
      destruct (_ && _); split; reflexivity.
Qed.

Lemma download_saved_content_witness :
  saves (download plain_options (always_ok (JStr "%PDF-1.7 ...")) message_and_code
           true "/report" JUndefined (Some (named "report.pdf")))
  = [SaveFile JUndefined "report.pdf"]
  /\ saves (download plain_options
              (fun c => Fulfilled
                 {| res_status := 200;
                    res_headers := {[ "isBlob" := JStr "true" ]};
                    res_config := c; res_data := JStr "%PDF-1.7 ..." |})
              message_and_code true "/report" JUndefined
              (Some (named "report.pdf")))
     = [SaveFile (JStr "%PDF-1.7 ...") "report.pdf"].
Proof.
  split.
  - pose proof (download_saved_content plain_options
                  (always_ok (JStr "%PDF-1.7 ...")) message_and_code
                  "/report" JUndefined (Some (named "report.pdf"))
                  (envelope
                     (download_descriptor "/report" JUndefined
                        (Some (named "report.pdf")))
                     (JStr "%PDF-1.7 ..."))
                  eq_refl eq_refl) as W.
    destruct W as [_ W]; [intros _; split; discriminate | exact W].
  - pose proof (download_saved_content plain_options
                  (fun c => Fulfilled
                     {| res_status := 200;
                        res_headers := {[ "isBlob" := JStr "true" ]};
                        res_config := c; res_data := JStr "%PDF-1.7 ..." |})
                  message_and_code
                  "/report" JUndefined (Some (named "report.pdf"))
                  {| res_status := 200;
                     res_headers := {[ "isBlob" := JStr "true" ]};
                     res_config :=
                       download_descriptor "/report" JUndefined
                         (Some (named "report.pdf"));
                     res_data := JStr "%PDF-1.7 ..." |}
                  eq_refl eq_refl) as W.
    destruct W as [_ W]; [intros H; vm_compute in H; discriminate H | exact W].
Defined.

(** X14.  In the browser, under the default policy, a transport success
    with an empty body ([null] or [undefined]) and no full envelope makes
    [download] fail: reading [data] of the unwrapped body raises, the
    failure is logged under "Download Error:" and re-raised, and nothing is
    offered for saving. *)
Theorem download_empty_body_rejects opts adapter js u ps config response :
  responseInterceptor opts = None ->
  adapter (shape opts (download_descriptor u ps config)) = Fulfilled response ->
  wants_envelope response = false ->
  res_data response = JUndefined \/ res_data response = JNull ->
  saves (download opts adapter js true u ps config) = []
  /\ exists t e,
       download opts adapter js true u ps config
       = (t ++ [ConsoleError "Download Error:" e], Rejected e).
Proof.
  intros Hhook Hans Hwant Hbody.
  rewrite download_in_browser, (service_request_on_success _ _ _ _ _ Hans).
  rewrite on_fulfilled_default by assumption.
  unfold trace at 1, outcome at 1; cbn [fst snd]. rewrite Hwant.
  destruct Hbody as [-> | ->]; destruct (_ && _); (split; [reflexivity|]);
    first [ eexists [_; _], _; reflexivity | eexists [_], _; reflexivity ].
Qed.

Lemma download_empty_body_rejects_witness :
  saves (download plain_options (always_ok JNull) message_and_code
           true "/report" JUndefined None) = [].
Proof.
  exact (proj1 (download_empty_body_rejects plain_options (always_ok JNull)
                  message_and_code "/report" JUndefined None
                  (envelope (download_descriptor "/report" JUndefined None)
                     JNull)
                  eq_refl eq_refl eq_refl (or_intror eq_refl))).
Defined.

(** X15.  In the browser, when the transport fails, [download] offers no
    file: the failure goes through the error handler, is logged under
    "Download Error:" as the last effect, and is re-raised, its message
    possibly replaced. *)
Theorem download_failure_reraised opts adapter js u ps config (e : Failure) :
  adapter (shape opts (download_descriptor u ps config)) = Rejected e ->
  saves (download opts adapter js true u ps config) = []
  /\ exists t e',
       download opts adapter js true u ps config
       = (t ++ [ConsoleError "Download Error:" e'], Rejected e')
       /\ annotated e e'.
Proof.
  intros Hans.
  destruct (on_rejected_shape opts js e) as (t & e' & Hr & Hann & _ & Hsave).
  assert (Hrun :
    download opts adapter js true u ps config
    = ((Dispatch (shape opts (download_descriptor u ps config)) :: t)
         ++ [ConsoleError "Download Error:" e'],
       Rejected e')).
  { rewrite download_in_browser, (service_request_on_failure _ _ _ _ _ Hans).
    rewrite Hr. reflexivity. }
  rewrite Hrun. split.
  - unfold saves, trace; cbn [fst].
    rewrite List.filter_app. cbn [List.filter is_save]. rewrite Hsave.
    reflexivity.
  - eexists _, e'. split; [reflexivity | exact Hann].
Qed.

Lemma download_failure_reraised_witness :
  saves (download plain_options
           (always_fails (fun c => network_failure c "Network Error"))
           message_and_code true "/report" JUndefined None) = [].
Proof.
  exact (proj1 (download_failure_reraised plain_options
                  (always_fails (fun c => network_failure c "Network Error"))
                  message_and_code "/report" JUndefined None
                  (network_failure (download_descriptor "/report" JUndefined None)
                     "Network Error")
                  eq_refl)).
Defined.

(** X17.  The name [download] suggests for the file is [config.filename]
    when that is a non-empty string and "file" otherwise (absent or
    empty); it is never empty. *)
Theorem suggested_name_spec (config : RequestConfig) :
  suggested_name config <> ""
  /\ (forall n, filename config = Some n -> n <> "" ->
      suggested_name config = n)
  /\ (filename config = None \/ filename config = Some "" ->
      suggested_name config = "file").
Proof.
  unfold suggested_name. split; [|split].
  - destruct (filename config) as [n|]; [|discriminate].
    destruct (String.eqb_spec n ""); [discriminate | assumption].
  - intros n -> Hn. apply String.eqb_neq in Hn. rewrite Hn. reflexivity.
  - intros [-> | ->]; reflexivity.
Qed.

Lemma suggested_name_spec_witness :
  suggested_name (named "report.pdf") = "report.pdf"
  /\ suggested_name (named "") = "file".
Proof.
  split.
  - exact (proj1 (proj2 (suggested_name_spec (named "report.pdf")))
             "report.pdf" eq_refl ltac:(discriminate)).
  - exact (proj2 (proj2 (suggested_name_spec (named "")))
             (or_intror eq_refl)).
Defined.

(** ** The older JavaScript class against the TypeScript one *)

Lemma legacy_on_rejected_cases opts js (A : Type) (e : Failure) :
  @Legacy.on_rejected opts js A e
  = if not_false (hasErrorMessage (defaulted (err_config e) empty_config))
    then ((if onError opts
           then [OnError (JStr (err_message (resolve_message opts js e)))]
           else []),
          Rejected (resolve_message opts js e))
    else ([], Rejected e).
Proof.
  unfold Legacy.on_rejected, notify, when.
  destruct (not_false _); [|reflexivity].
  destruct (onError opts); reflexivity.
Qed.

(** X18.  On every failure that is not a cancellation the two error
    handlers do the same: same notifier invocation, same re-raised
    failure. *)
Theorem legacy_handler_agrees opts js (e : Failure) :
  err_isCancel e = false ->
  @Legacy.on_rejected opts js Returned e = @on_rejected opts js Returned e.
Proof.
  intros Hlive. rewrite legacy_on_rejected_cases, on_rejected_cases, Hlive.
  reflexivity.
Qed.

Lemma legacy_handler_agrees_witness :
  @Legacy.on_rejected plain_options message_and_code Returned
    (http_failure (descriptor None None) 404)
  = @on_rejected plain_options message_and_code Returned
      (http_failure (descriptor None None) 404).
Proof.
  exact (legacy_handler_agrees plain_options message_and_code
           (http_failure (descriptor None None) 404) eq_refl).
Defined.

(** X19.  The older handler reports a cancelled request as a connection
    failure: a cancellation with no response, whose flag is not explicitly
    false, gets the generic (or timeout) message attached and the notifier
    is invoked with it. *)
Theorem legacy_reports_cancellation opts js (e : Failure) :
  err_isCancel e = true ->
  err_response e = None ->
  hasErrorMessage (defaulted (err_config e) empty_config) <> Some false ->
  onError opts = true ->
  @Legacy.on_rejected opts js Returned e
  = ([OnError
        (JStr (if includes (js (with_message connection_failed e)) "timeout"
               then response_timed_out else connection_failed))],
     Rejected
       (with_message
          (if includes (js (with_message connection_failed e)) "timeout"
           then response_timed_out else connection_failed) e)).
Proof.
  intros _ Hresp Hflag Hsink.
  rewrite legacy_on_rejected_cases, Hsink.
  assert (Hon : not_false
                  (hasErrorMessage (defaulted (err_config e) empty_config))
                = true)
    by (destruct (hasErrorMessage _) as [[|]|]; [reflexivity | congruence
                                                | reflexivity]).
  rewrite Hon. unfold resolve_message. rewrite Hresp.
  destruct (includes _ _); reflexivity.
Qed.

Lemma legacy_reports_cancellation_witness :
  @Legacy.on_rejected plain_options message_and_code Returned
    (cancellation (descriptor None None))
  = ([OnError (JStr "连接服务器失败")],
     Rejected (with_message "连接服务器失败"
                 (cancellation (descriptor None None)))).
Proof.
  exact (legacy_reports_cancellation plain_options message_and_code
           (cancellation (descriptor None None))
           eq_refl eq_refl ltac:(discriminate) eq_refl).
Defined.

(** X20.  On a transport failure that is not a cancellation, the older
    [request] does what the TypeScript one does and then logs the failure
    it re-raises under "Request Error:"; the TypeScript [request] logs
    nothing. *)
Theorem legacy_request_logs opts adapter js config (e : Failure) :
  adapter (shape opts config) = Rejected e ->
  err_isCancel e = false ->
  exists t e',
    request opts adapter js config = (t, Rejected e')
    /\ Legacy.request opts adapter js config
       = (t ++ [ConsoleError "Request Error:" e'], Rejected e').
Proof.
  intros Hans Hlive.
  destruct (on_rejected_shape opts js e) as (t & e' & Hr & _).
  exists (Dispatch (shape opts config) :: t), e'. split.
  - rewrite (request_on_failure _ _ _ _ _ Hans), Hr. reflexivity.
  - unfold Legacy.request, Legacy.service_request. rewrite Hans.
    rewrite on_rejected_cases, Hlive in Hr.
    rewrite legacy_on_rejected_cases, Hr. reflexivity.
Qed.

Lemma legacy_request_logs_witness :
  exists t e',
    request plain_options (always_fails (fun c => http_failure c 500))
      message_and_code (descriptor None None) = (t, Rejected e')
    /\ Legacy.request plain_options
         (always_fails (fun c => http_failure c 500))
         message_and_code (descriptor None None)
       = (t ++ [ConsoleError "Request Error:" e'], Rejected e').
Proof.
  exact (legacy_request_logs plain_options
           (always_fails (fun c => http_failure c 500)) message_and_code
           (descriptor None None) (http_failure (descriptor None None) 500)
           eq_refl eq_refl).
Defined.

(** X21.  Outside the browser the older [download] still goes to the
    transport, exactly once, and then always fails: whether the transport
    succeeds or not the call rejects, and no file is offered. *)
Theorem legacy_download_outside_browser_fails opts adapter js u ps config :
  dispatches (Legacy.download opts adapter js false u ps config)
  = [Dispatch (shape opts (download_descriptor u ps config))]
  /\ saves (Legacy.download opts adapter js false u ps config) = []
  /\ exists e,
       outcome (Legacy.download opts adapter js false u ps config)
       = Rejected e.
Proof.
  unfold Legacy.download, Legacy.service_request.
  fold (download_descriptor u ps config).
  destruct (adapter (shape opts (download_descriptor u ps config)))
    as [response|e].
  - unfold Legacy.on_fulfilled.
    destruct (responseInterceptor opts) as [hook|];
      (split; [reflexivity | split; [reflexivity | eexists; reflexivity]]).
  - rewrite legacy_on_rejected_cases.
    destruct (not_false _); [destruct (onError opts)|];
      (split; [reflexivity | split; [reflexivity | eexists; reflexivity]]).
Qed.

(** ** The object-storage adapter *)

(** X22.  [OSSService.upload] invokes the storage primitive exactly once,
    with the key and content it was given, and settles as the primitive
    does: the result is handed back unchanged with nothing logged; a
    failure is re-raised unchanged, logged once under "OSS Upload Error:",
    with no message resolution. *)
Theorem oss_upload_passes_through {R E : Type}
    (client_put : string -> JsVal -> R + E) filePath file :
  snd (OSSService.upload client_put filePath file) = client_put filePath file
  /\ List.filter is_oss_put (fst (OSSService.upload client_put filePath file))
     = [OssPut filePath file]
  /\ (forall result, client_put filePath file = inl result ->
      fst (OSSService.upload client_put filePath file)
      = [OssPut filePath file])
  /\ (forall error, client_put filePath file = inr error ->
      fst (OSSService.upload client_put filePath file)
      = [OssPut filePath file; OssConsoleError "OSS Upload Error:" error]).
Proof.
  unfold OSSService.upload.
  destruct (client_put filePath file) as [result|error];
    (split; [reflexivity | split; [reflexivity | split]]);
    intros x Hx; inversion Hx; reflexivity.
Qed.

Lemma oss_upload_passes_through_witness :
  OSSService.upload sample_put "uploads/a.png" (JStr "bytes")
  = ([OssPut "uploads/a.png" (JStr "bytes")], inl "etag-uploads/a.png")
  /\ OSSService.upload sample_put "private/a.png" (JStr "bytes")
     = ([OssPut "private/a.png" (JStr "bytes");
         OssConsoleError "OSS Upload Error:" "AccessDenied"],
        inr "AccessDenied").
Proof.
  split.
  - apply injective_projections.
    + exact (proj1 (proj2 (proj2
               (oss_upload_passes_through sample_put "uploads/a.png"
                  (JStr "bytes")))) "etag-uploads/a.png" eq_refl).
    + exact (proj1 (oss_upload_passes_through sample_put "uploads/a.png"
                      (JStr "bytes"))).
  - apply injective_projections.
    + exact (proj2 (proj2 (proj2
               (oss_upload_passes_through sample_put "private/a.png"
                  (JStr "bytes")))) "AccessDenied" eq_refl).
    + exact (proj1 (oss_upload_passes_through sample_put "private/a.png"
                      (JStr "bytes"))).
Defined.

(** X23.  The older [OSSService.upload] differs from the TypeScript one by
    one effect only: it settles the same way and, its alerts removed, does
    the same things; it pops up the "OSS Upload Failed" dialog exactly when
    the storage primitive fails. *)
Theorem oss_legacy_upload_alerts {R E : Type}
    (client_put : string -> JsVal -> R + E) filePath file :
  snd (OSSService.legacy_upload client_put filePath file)
  = snd (OSSService.upload client_put filePath file)
  /\ List.filter (fun ev => negb (is_oss_alert ev))
       (fst (OSSService.legacy_upload client_put filePath file))
     = fst (OSSService.upload client_put filePath file)
  /\ List.filter is_oss_alert
       (fst (OSSService.legacy_upload client_put filePath file))
     = match client_put filePath file with
       | inl _ => []
       | inr _ => [OssAlert "OSS Upload Failed"]
       end.
Proof.
  unfold OSSService.legacy_upload, OSSService.upload.
  destruct (client_put filePath file); repeat split.
Qed.
